(** * CrowdVision-AI: the frame-to-metrics path of the web front end

    A shallow embedding of
    - [app/api/detect-crowd/route.ts] in its two revisions: the mock
      revision (random detections) and the inference revision (the Python
      inference server is called over HTTP),
    - [components/webcam-feed.tsx]: the detection call with its fallback,
      the mock generator of the component, the displayed figures and the
      start/stop life cycle of the capture stream.

    Conventions.
    - JavaScript numbers that hold counts are [Z]; numbers that hold
      coordinates, sizes and confidences are [Q], with exact arithmetic
      (rounding of IEEE doubles is not modelled).
    - [Math.random()] is an explicit source of draws, threaded through the
      code in the order in which JavaScript evaluates the calls.
    - Promises are run to completion: an awaited call either resolves to a
      value or rejects, and the outcome is part of the environment.
    - [console.log], [console.error], the Firestore write and the push
      notification are recorded in an effect log. *)

From Stdlib Require Import ZArith QArith Qround Qminmax Lia Lqa String List DecimalString.
From stdpp Require Import base gmap list strings.
Import ListNotations.

Local Open Scope Z_scope.

(** ** Data model *)

(** [riskLevel: "low" | "medium" | "high"] *)
Inductive RiskLevel : Type := low | medium | high.

#[global] Instance RiskLevel_eq_dec : EqDecision RiskLevel.
Proof. solve_decision. Defined.

(** The ordinal order low < medium < high. *)
Definition rank (r : RiskLevel) : Z :=
  match r with low => 0 | medium => 1 | high => 2 end.

Definition risk_le (a b : RiskLevel) : Prop := rank a <= rank b.

(** [riskLevel.toUpperCase()] on the three literals; the literal itself. *)
Definition riskLevel_string (r : RiskLevel) : string :=
  match r with low => "low" | medium => "medium" | high => "high" end.

(** [{ x, y, width, height }], with [confidence] in the route's boxes only
    (the component's mock boxes have no such property). *)
Record BoundingBox : Type := mkBox {
  x : Q;
  y : Q;
  width : Q;
  height : Q;
  confidence : option Q
}.

(** [interface DetectionResult { count; riskLevel; boundingBoxes }] *)
Record DetectionResult : Type := mkResult {
  count : Z;
  riskLevel : RiskLevel;
  boundingBoxes : list BoundingBox
}.

(** ** [Math.random()] *)

(** The generator: an unbounded supply of draws and the index of the next
    one. Nothing in the code seeds or resets it. *)
Record MathRandom : Type := mkRandom {
  samples : nat -> Q;
  cursor : nat
}.

(** [Math.random()] returns a number in [0, 1). *)
Definition unit_draws (g : MathRandom) : Prop :=
  forall i : nat, (0 <= samples g i)%Q /\ (samples g i < 1)%Q.

(** Code that calls [Math.random()]. *)
Definition Rand (A : Type) : Type := MathRandom -> A * MathRandom.

Definition ret {A : Type} (a : A) : Rand A := fun g => (a, g).

Definition bind {A B : Type} (m : Rand A) (k : A -> Rand B) : Rand B :=
  fun g => let (a, g') := m g in k a g'.

Notation "'let*' v ':=' m 'in' k" := (bind m (fun v => k))
  (at level 10, v name, m at level 100, k at level 200).

Definition random : Rand Q :=
  fun g => (samples g (cursor g), mkRandom (samples g) (S (cursor g))).

(** [Array.from({ length: n }, f)]: [f] is called for the indices
    0, 1, ..., n-1 in this order. *)
Fixpoint arrayFrom {A : Type} (n : nat) (f : Rand A) : Rand (list A) :=
  match n with
  | O => ret []
  | S n' => let* a := f in let* l := arrayFrom n' f in ret (a :: l)
  end.

(** [Math.floor(Math.random() * n) + 1], given the draw, with the product
    taken exactly. The code floors the product rounded to a double, which
    for a draw just below a multiple of 1/n can be the next integer: the
    count of such a draw is then one more in the code than here, within
    the same range 1..n. *)
Definition floor_scaled (r : Q) (n : Z) : Z := Qfloor (r * inject_Z n) + 1.

(** The length of [Array.from({ length: count }, ...)]: ToLength clamps a
    negative length to 0. *)
Definition toLength (count : Z) : nat := Z.to_nat count.

(** ** HTTP, Firestore and the console *)

(** The JSON body [{ image, cameraId }] as the component sends it: each
    property is a string, or is absent ([None]). A body whose [image] or
    [cameraId] is of another JSON type (a number, a boolean, null, an
    array, an object) is not represented. *)
Record RequestBody : Type := mkBody {
  image : option string;
  cameraId : option string
}.

(** [!image], for an image that is a string or is absent: [undefined] and
    the empty string are falsy, every other string is truthy. *)
Definition falsy (v : option string) : bool :=
  match v with
  | None => true
  | Some s => if decide (s = EmptyString) then true else false
  end.

(** [json] is [None] when [request.json()] rejects (the body is not JSON)
    and when the body is the JSON [null], on which the destructuring
    throws: either way the handler ends in its outer [catch]. *)
Record NextRequest : Type := mkRequest {
  json : option RequestBody
}.

(** The outcome of [await fetch(...)] followed by [response.json()]. *)
Inductive FetchOutcome : Type :=
| FetchRejects (reason : string)
| FetchResolves (ok : bool) (status : Z) (payload : option DetectionResult).

(** [NextResponse.json(body, { status })]; the status defaults to 200. *)
Inductive ResponseBody : Type :=
| Detections (d : DetectionResult)
| ErrorBody (error : string).

Record NextResponse : Type := mkResponse {
  status : Z;
  body : ResponseBody
}.

(** The document written to the [alerts] collection; its [timestamp] is
    the [serverTimestamp()] sentinel and carries no value. *)
Record AlertDoc : Type := mkAlertDoc {
  doc_cameraId : option string;
  doc_count : Z;
  doc_riskLevel : RiskLevel;
  doc_acknowledged : bool;
  doc_location : string;
  doc_message : string
}.

(** The argument of [sendAlertToAndroidApp]. *)
Record AlertEvent : Type := mkAlert {
  alert_cameraId : option string;
  alert_count : Z;
  alert_riskLevel : RiskLevel;
  alert_timestamp : string
}.

Inductive Effect : Type :=
| ConsoleLog (msg : string)
| ConsoleError (msg : string)
| AddDoc (collection : string) (doc : AlertDoc)
| AlertSent (alert : AlertEvent).

(** What surrounds one request: the inference server, Firestore (does
    [addDoc] resolve for this document?) and the clock read by
    [new Date().toISOString()]. *)
Record Env : Type := mkEnv {
  fetch : RequestBody -> FetchOutcome;
  addDoc : AlertDoc -> bool;
  now : string
}.

(** Template literal [${count}]. *)
Definition string_of_count (count : Z) : string :=
  NilZero.string_of_int (Z.to_int count).

(** The alert block shared, word for word, by the revisions of the route
    that store alerts. *)
Definition alertDoc (cameraId : option string) (d : DetectionResult) : AlertDoc :=
  mkAlertDoc cameraId (count d) (riskLevel d) false "Main Entrance"
    ("High risk detected: " ++ string_of_count (count d) ++ " people").

Definition alertEvent (env : Env) (cameraId : option string) (d : DetectionResult)
  : AlertEvent :=
  mkAlert cameraId (count d) (riskLevel d) (now env).

(** [try { await addDoc(...); console.log(...) } catch { console.error(...) }] *)
Definition storeAlert (env : Env) (cameraId : option string) (d : DetectionResult)
  : list Effect :=
  if addDoc env (alertDoc cameraId d)
  then [AddDoc "alerts" (alertDoc cameraId d); ConsoleLog "Alert stored in Firestore"]
  else [ConsoleError "Error storing alert in Firestore:"].

(** [sendAlertToAndroidApp]: the body is a [console.log] of the alert. *)
Definition sendAlertToAndroidApp (alert : AlertEvent) : list Effect :=
  [AlertSent alert].

(** [if (detections.riskLevel === "high") { ... }] *)
Definition checkAlert (env : Env) (cameraId : option string) (d : DetectionResult)
  : list Effect :=
  if decide (riskLevel d = high)
  then storeAlert env cameraId d ++ sendAlertToAndroidApp (alertEvent env cameraId d)
  else [].

(** The alerts pushed by a run, in order. *)
Definition alertsSent (log : list Effect) : list AlertEvent :=
  omap (fun e => match e with AlertSent a => Some a | _ => None end) log.

(** The risk level carried by a response, when it carries detections. *)
Definition responseRisk (r : NextResponse) : option RiskLevel :=
  match body r with
  | Detections d => Some (riskLevel d)
  | ErrorBody _ => None
  end.

(** ** [app/api/detect-crowd/route.ts], mock revision *)

Module MockRoute.

(** <<
    let riskLevel = "low"
    if (count > 10) riskLevel = "high"
    else if (count > 6) riskLevel = "medium"
    >> *)
Definition classify (count : Z) : RiskLevel :=
  if count >? 10 then high
  else if count >? 6 then medium
  else low.

(** One element of [boundingBoxes]; the five draws are taken in the order
    of the properties of the object literal. (The revision of the route
    that stores no alert has this generator too, character for
    character.) *)
Definition mockBox : Rand BoundingBox :=
  let* rx := random in
  let* ry := random in
  let* rw := random in
  let* rh := random in
  let* rc := random in
  ret (mkBox (rx * 0.7 + 0.1) (ry * 0.6 + 0.1)
             (0.08 + rw * 0.06) (0.12 + rh * 0.1)
             (Some (0.7 + rc * 0.3)))%Q.

Definition generateMockDetections : Rand DetectionResult :=
  let* r := random in
  let count := floor_scaled r 15 in
  let* boundingBoxes := arrayFrom (toLength count) mockBox in
  ret (mkResult count (classify count) boundingBoxes).

Definition POST (request : NextRequest) (env : Env)
  : Rand (NextResponse * list Effect) :=
  match json request with
  | None =>
      ret (mkResponse 500 (ErrorBody "Detection failed"),
           [ConsoleError "Detection API error:"])
  | Some b =>
      if falsy (image b)
      then ret (mkResponse 400 (ErrorBody "No image provided"), [])
      else
        let* mockDetections := generateMockDetections in
        ret (mkResponse 200 (Detections mockDetections),
             checkAlert env (cameraId b) mockDetections)
  end.

(** The requests of a camera, served one after the other. *)
Fixpoint serve (frames : list (NextRequest * Env))
  : Rand (list (NextResponse * list Effect)) :=
  match frames with
  | [] => ret []
  | (request, env) :: rest =>
      let* r := POST request env in
      let* rs := serve rest in
      ret (r :: rs)
  end.

End MockRoute.

(** ** [app/api/detect-crowd/route.ts], inference revision *)

Module InferenceRoute.

Definition detectionFailed : NextResponse * list Effect :=
  (mkResponse 500 (ErrorBody "Detection failed"),
   [ConsoleError "Detection API error:"]).

Definition POST (request : NextRequest) (env : Env)
  : NextResponse * list Effect :=
  match json request with
  | None => detectionFailed
  | Some b =>
      if falsy (image b)
      then (mkResponse 400 (ErrorBody "No image provided"), [])
      else
        match fetch env (mkBody (image b) (cameraId b)) with
        | FetchRejects _ => detectionFailed
        | FetchResolves false _ _ => detectionFailed
        | FetchResolves true _ None => detectionFailed
        | FetchResolves true _ (Some mlDetections) =>
            (mkResponse 200 (Detections mlDetections),
             checkAlert env (cameraId b) mlDetections)
        end
  end.

(** The requests of a camera, served one after the other; the handler
    keeps nothing between two requests. *)
Definition serve (frames : list (NextRequest * Env))
  : list (NextResponse * list Effect) :=
  map (fun f => POST (fst f) (snd f)) frames.

End InferenceRoute.

(** ** [components/webcam-feed.tsx] *)

Module Webcam.

(** *** Detection *)

(** <<
    let riskLevel = "low"
    if (count > 7) riskLevel = "high"
    else if (count > 4) riskLevel = "medium"
    >> *)
Definition classify (count : Z) : RiskLevel :=
  if count >? 7 then high
  else if count >? 4 then medium
  else low.

Definition mockBox : Rand BoundingBox :=
  let* rx := random in
  let* ry := random in
  let* rw := random in
  let* rh := random in
  ret (mkBox (rx * 0.7 + 0.1) (ry * 0.6 + 0.1)
             (0.1 + rw * 0.05) (0.15 + rh * 0.1)
             None)%Q.

Definition generateMockDetections : Rand DetectionResult :=
  let* r := random in
  let count := floor_scaled r 10 in
  let* boundingBoxes := arrayFrom (toLength count) mockBox in
  ret (mkResult count (classify count) boundingBoxes).

(** The call to [/api/detect-crowd] fails: [fetch] rejects (network
    error, abort), the response is not OK, or its body is not JSON.
    Each of the three throws inside the [try] of [detectCrowd]. *)
Definition callFails (o : FetchOutcome) : bool :=
  match o with
  | FetchResolves true _ (Some _) => false
  | _ => true
  end.

(** [detectCrowd(imageData)], for the camera [camera_id]; [fetch] is the
    route as seen from the browser. *)
Definition detectCrowd (camera_id : string) (fetch : RequestBody -> FetchOutcome)
    (imageData : string) : Rand (DetectionResult * list Effect) :=
  match fetch (mkBody (Some imageData) (Some camera_id)) with
  | FetchResolves true _ (Some d) => ret (d, [])
  | _ =>
      let* d := generateMockDetections in
      ret (d, [ConsoleError "ML API error:"])
  end.

(** *** Displayed figures *)

(** [detections?.count || 0] *)
Definition displayedCount (detections : option DetectionResult) : Z :=
  match detections with
  | Some d => if count d =? 0 then 0 else count d
  | None => 0
  end.

(** [detections?.riskLevel || camera.riskLevel] *)
Definition displayedRisk (detections : option DetectionResult)
    (camera_riskLevel : RiskLevel) : RiskLevel :=
  match detections with
  | Some d => riskLevel d
  | None => camera_riskLevel
  end.

(** *** The capture stream *)

(** [MediaStreamTrack.readyState] *)
Inductive ReadyState : Type := live | ended.

(** A [MediaStream] is an object shared by [streamRef.current] and
    [videoRef.current.srcObject]; it is named by the tracks it holds,
    which live in the browser. *)
Record MediaStream : Type := mkStream {
  getTracks : list nat
}.

(** The part of [HTMLVideoElement] the component touches. [load()]
    resets the element: it is paused and holds no media data. *)
Record HTMLVideoElement : Type := mkVideo {
  srcObject : option MediaStream;
  paused : bool;
  hasData : bool
}.

Definition load (v : HTMLVideoElement) : HTMLVideoElement :=
  mkVideo (srcObject v) true false.

(** The browser: the state of every track handed out so far, the next
    track name, the running [setInterval] timers, the next timer handle
    (handles are positive, hence truthy), and the number of streams
    [getUserMedia] has handed out. *)
Record Browser : Type := mkBrowser {
  tracks : gmap nat ReadyState;
  nextTrack : nat;
  intervals : gset positive;
  nextInterval : positive;
  acquired : nat
}.

(** The refs and the state variables of the component. *)
Record Component : Type := mkComponent {
  streamRef : option MediaStream;
  videoRef : option HTMLVideoElement;
  detectionIntervalRef : option positive;
  isWebcamActive : bool;
  isWebcamEnabled : bool;
  error : option string
}.

(** [stream.getTracks().forEach(track => track.stop())] *)
Definition stopTracks (ts : list nat) (m : gmap nat ReadyState)
  : gmap nat ReadyState :=
  foldl (fun m t => <[t := ended]> m) m ts.

(** [navigator.mediaDevices.getUserMedia({ video: true })] when it
    resolves with [n] tracks. *)
Definition getUserMedia (n : nat) (b : Browser) : MediaStream * Browser :=
  let ts := seq (nextTrack b) n in
  (mkStream ts,
   mkBrowser (foldl (fun m t => <[t := live]> m) (tracks b) ts)
             (nextTrack b + n) (intervals b) (nextInterval b)
             (S (acquired b))).

Definition stopWebcam (s : Browser * Component) : Browser * Component :=
  let (b, c) := s in
  (* if (streamRef.current) { ...stop(); streamRef.current = null } *)
  let b1 :=
    match streamRef c with
    | Some stream =>
        mkBrowser (stopTracks (getTracks stream) (tracks b))
                  (nextTrack b) (intervals b) (nextInterval b) (acquired b)
    | None => b
    end in
  (* if (videoRef.current) { srcObject = null; load() } *)
  let video :=
    match videoRef c with
    | Some v => Some (load (mkVideo None (paused v) (hasData v)))
    | None => None
    end in
  (* if (detectionIntervalRef.current) { clearInterval(...); ... = null } *)
  let b2 :=
    match detectionIntervalRef c with
    | Some id =>
        mkBrowser (tracks b1) (nextTrack b1) (intervals b1 ∖ {[id]})
                  (nextInterval b1) (acquired b1)
    | None => b1
    end in
  (b2, mkComponent None video None false (isWebcamEnabled c) (error c)).

(** [initializeWebcam()]; [device] is the outcome of [getUserMedia]:
    the number of tracks of the stream, or [None] when it rejects. *)
Definition initializeWebcam (device : option nat) (s : Browser * Component)
  : (Browser * Component) * list Effect :=
  let (b, c) := s in
  match streamRef c with
  | Some _ => (s, [])
  | None =>
      match device with
      | Some n =>
          let (stream, b') := getUserMedia n b in
          if negb (isWebcamEnabled c)
          then
            (mkBrowser (stopTracks (getTracks stream) (tracks b'))
                       (nextTrack b') (intervals b') (nextInterval b')
                       (acquired b'),
             c, [])
          else
            (b',
             mkComponent (Some stream) (videoRef c) (detectionIntervalRef c)
                         true (isWebcamEnabled c) None,
             [])
      | None =>
          (b,
           mkComponent (streamRef c) (videoRef c) (detectionIntervalRef c)
                       false false
                       (Some "Unable to access webcam. Please check permissions."),
           [ConsoleError "Error accessing webcam:"])
      end
  end.

(** [startDetection()]: the handle of a new timer overwrites the ref. *)
Definition startDetection (s : Browser * Component) : Browser * Component :=
  let (b, c) := s in
  (mkBrowser (tracks b) (nextTrack b) ({[nextInterval b]} ∪ intervals b)
             (Pos.succ (nextInterval b)) (acquired b),
   mkComponent (streamRef c) (videoRef c) (Some (nextInterval b))
               (isWebcamActive c) (isWebcamEnabled c) (error c)).

End Webcam.

(** ** Parts of the pipeline that the front end only consumes *)

(** Modelled from the spec: the [FrameMetrics] record (section 3; its
    producer is the Python backend, of which the front end holds the type
    declaration [CameraFrame.metrics] only). The fields [frame_seq],
    [timestamp] and [fps] play no part here and are left out. *)
Record FrameMetrics : Type := mkMetrics {
  total_people : Z;
  num_groups : Z;
  density_level : RiskLevel
}.

(** Modelled from the spec: what section 4.3 asks of any clusterer. A
    cluster groups detections of the frame it was computed from, and it
    meets a minimum-member threshold, so it has a member. *)
Definition groupsDetections
    (cluster : list BoundingBox -> list (list BoundingBox)) : Prop :=
  forall (detections : list BoundingBox) (c : list BoundingBox),
    In c (cluster detections) ->
    c <> [] /\ (forall p, In p c -> In p detections).

(** Modelled from the spec: the invariant of section 3 in non-tracking
    mode. [total_people] is the number of filtered detections,
    [num_groups] the number of clusters, and [density_level] a function of
    [total_people] and of the thresholds (here: of the classifier). *)
Definition frameMetrics
    (cluster : list BoundingBox -> list (list BoundingBox))
    (classify : Z -> RiskLevel)
    (detections : list BoundingBox) : FrameMetrics :=
  let total := Z.of_nat (length detections) in
  mkMetrics total (Z.of_nat (length (cluster detections))) (classify total).

(** Modelled from the spec: intersection over union, the glossary's
    "overlap ratio between two boxes", for boxes given by their top-left
    corner, width and height. The front end has no such function. *)
Definition overlap (a1 a2 b1 b2 : Q) : Q :=
  Qmax 0 (Qmin a2 b2 - Qmax a1 b1).

Definition intersectionArea (a b : BoundingBox) : Q :=
  (overlap (x a) (x a + width a) (x b) (x b + width b)
   * overlap (y a) (y a + height a) (y b) (y b + height b))%Q.

Definition area (a : BoundingBox) : Q := (width a * height a)%Q.

Definition iou (a b : BoundingBox) : Q :=
  (intersectionArea a b / (area a + area b - intersectionArea a b))%Q.

(** Modelled from the spec: the default [iou_threshold] of section 4.1. *)
Definition iou_threshold : Q := 0.45%Q.

(** Draw sources used in the examples. *)
Definition constant_draws (q : Q) : MathRandom := mkRandom (fun _ => q) 0.

(** A clusterer used in the examples: the detections of a frame form one
    group, when there are any. *)
Definition oneGroup (detections : list BoundingBox) : list (list BoundingBox) :=
  match detections with
  | [] => []
  | _ :: _ => [detections]
  end.

(** The bands of a classifier: below [m] low, from [m] and below [h]
    medium, from [h] on high. *)
Definition banded (classify : Z -> RiskLevel) (m h : Z) : Prop :=
  forall count : Z,
    (classify count = low <-> count < m) /\
    (classify count = medium <-> m <= count < h) /\
    (classify count = high <-> h <= count).

(** The shape shared by the two classifiers, with its constants as
    parameters: [MockRoute.classify] is [classifyWith 10 6] and
    [Webcam.classify] is [classifyWith 7 4]. *)
Definition classifyWith (hi mid : Z) (count : Z) : RiskLevel :=
  if count >? hi then high
  else if count >? mid then medium
  else low.

(** The generator after [k] more draws. *)
Definition advance (k : nat) (g : MathRandom) : MathRandom :=
  mkRandom (samples g) (k + cursor g).

(** Two generators that are at the same position and agree on their next
    [n] draws. *)
Definition agree (n : nat) (g1 g2 : MathRandom) : Prop :=
  cursor g1 = cursor g2 /\
  forall i : nat, (i < n)%nat -> samples g1 (i + cursor g1) = samples g2 (i + cursor g2).

(** A computation that takes exactly [k] draws and whose result is a
    function of these draws. *)
Definition reads {A : Type} (k : nat) (m : Rand A) : Prop :=
  (forall g, snd (m g) = advance k g) /\
  (forall g1 g2, agree k g1 g2 -> fst (m g1) = fst (m g2)).

(** Every retained detection carries a confidence in [lo, hi]. *)
Definition confidencesWithin (lo hi : Q) (d : DetectionResult) : Prop :=
  forall b, In b (boundingBoxes d) ->
    exists c, confidence b = Some c /\ (lo <= c)%Q /\ (c <= hi)%Q.

(** No two retained detections overlap with an IoU above the threshold
    (the detections are all of the one class, person). *)
Definition suppressed (d : DetectionResult) : Prop :=
  forall (i j : nat) (a b : BoundingBox),
    i <> j ->
    boundingBoxes d !! i = Some a ->
    boundingBoxes d !! j = Some b ->
    (iou a b <= iou_threshold)%Q.



(** The route is unreachable from the browser. *)
Definition unreachable (_ : RequestBody) : FetchOutcome :=
  FetchRejects "Failed to fetch".

(** The camera named by a request. *)
Definition requestCamera (request : NextRequest) : option string :=
  match json request with
  | Some b => cameraId b
  | None => None
  end.

(** Edge-triggered alerting over the frames served in a row: a frame at
    high risk that emits an alert is not preceded by a frame at high
    risk. *)
Definition edgeTriggered (served : list (NextResponse * list Effect)) : Prop :=
  forall (i : nat) (previous current : NextResponse * list Effect),
    served !! i = Some previous ->
    served !! S i = Some current ->
    responseRisk (fst current) = Some high ->
    alertsSent (snd current) <> [] ->
    responseRisk (fst previous) <> Some high.

(** Level-triggered alerting: each served frame that carries detections
    emits one alert, built from its own request, when its risk level is
    high, and none otherwise. *)
Definition levelTriggered (frames : list (NextRequest * Env))
    (served : list (NextResponse * list Effect)) : Prop :=
  forall (i : nat) (r : NextResponse * list Effect) (d : DetectionResult),
    served !! i = Some r ->
    body (fst r) = Detections d ->
    exists request env,
      frames !! i = Some (request, env) /\
      alertsSent (snd r) =
        if decide (riskLevel d = high)
        then [alertEvent env (requestCamera request) d]
        else [].

(** A crowded frame as the inference server reports it, a request of
    camera CAM-001, and its environment, in which Firestore accepts the
    write ([stores = true]) or rejects it. *)
Definition crowded : DetectionResult :=
  mkResult 12 high [].

Definition frameRequest : NextRequest :=
  mkRequest (Some (mkBody (Some "data:image/jpeg;base64,") (Some "CAM-001"))).

Definition crowdedEnv (stores : bool) : Env :=
  mkEnv (fun _ => FetchResolves true 200 (Some crowded)) (fun _ => stores)
        "2024-01-01T00:00:00.000Z".

(** A component that holds a stream of one live track, shown in the
    video element, with the detection timer running: the state reached
    from a fresh page by [initializeWebcam], the effect that attaches the
    stream, and [startDetection]. *)
Definition freshPage : Webcam.Browser * Webcam.Component :=
  (Webcam.mkBrowser ∅ 0 ∅ 1%positive 0,
   Webcam.mkComponent None None None false true None).

Definition attachStream (s : Webcam.Browser * Webcam.Component)
  : Webcam.Browser * Webcam.Component :=
  (fst s,
   Webcam.mkComponent (Webcam.streamRef (snd s))
     (Some (Webcam.mkVideo (Webcam.streamRef (snd s)) false true))
     (Webcam.detectionIntervalRef (snd s)) (Webcam.isWebcamActive (snd s))
     (Webcam.isWebcamEnabled (snd s)) (Webcam.error (snd s))).

Definition capturing : Webcam.Browser * Webcam.Component :=
  Webcam.startDetection
    (attachStream (fst (Webcam.initializeWebcam (Some 1%nat) freshPage))).

(** What [stopWebcam] leaves behind, given the state [s] it was called
    in: no stream reference, no timer handle, the component inactive,
    every track of the stream held in [s] ended and the timer of [s]
    cleared. *)
Definition released (s s' : Webcam.Browser * Webcam.Component) : Prop :=
  Webcam.streamRef (snd s') = None /\
  Webcam.detectionIntervalRef (snd s') = None /\
  Webcam.isWebcamActive (snd s') = false /\
  (forall stream t,
     Webcam.streamRef (snd s) = Some stream ->
     In t (Webcam.getTracks stream) ->
     Webcam.tracks (fst s') !! t = Some Webcam.ended) /\
  (forall id,
     Webcam.detectionIntervalRef (snd s) = Some id ->
     id ∉ Webcam.intervals (fst s')).

(** ** Further notions used by the properties *)

(** A box of positive size that lies within the normalized frame. *)
Definition insideFrame (b : BoundingBox) : Prop :=
  (0 <= x b)%Q /\ (0 <= y b)%Q /\ (0 < width b)%Q /\ (0 < height b)%Q /\
  (x b + width b <= 1)%Q /\ (y b + height b <= 1)%Q.

(** The documents a run has stored in Firestore, in order. *)
Definition docsStored (log : list Effect) : list AlertDoc :=
  omap (fun e => match e with AddDoc _ doc => Some doc | _ => None end) log.

(** ** [components/webcam-feed.tsx], the rest of the component *)

Module Feed.

(** [status: "online" | "offline"] *)
Inductive Status : Type := online | offline.

(** The [camera] prop. *)
Record Camera : Type := mkCamera {
  camera_id : string;
  camera_name : string;
  camera_location : string;
  camera_status : Status;
  camera_peopleCount : Z;
  camera_riskLevel : RiskLevel;
  camera_fps : Z;
  camera_resolution : string;
  camera_latitude : Q;
  camera_longitude : Q
}.

(** [camera.id === "CAM-001"] *)
Definition isMainCamera (camera : Camera) : bool :=
  if decide (camera_id camera = "CAM-001"%string) then true else false.

(** What has been painted on the canvas since it was last resized. *)
Inductive Drawing : Type :=
| DrawImage (w h : Z)
| StrokeRect (x y w h : Q)
| FillText (text : string) (x y : Q).

(** The canvas element with the state of its 2D context. [has2d] is
    false when [getContext("2d")] returns null. *)
Record Canvas : Type := mkCanvas {
  canvas_width : Z;
  canvas_height : Z;
  has2d : bool;
  strokeStyle : string;
  lineWidth : Z;
  font : string;
  fillStyle : string;
  drawn : list Drawing
}.

(** [canvas.width = w; canvas.height = h]: assigning a dimension clears
    the bitmap and resets the context to its defaults. *)
Definition resize (w h : Z) (c : Canvas) : Canvas :=
  mkCanvas w h (has2d c) "#000000" 1 "10px sans-serif" "#000000" [].

(** The component: the refs and state variables of [Webcam.Component]
    with the browser they act on, and the remaining state variables and
    the canvas ref. *)
Record Feed : Type := mkFeed {
  page : Webcam.Browser * Webcam.Component;
  isPaused : bool;
  detections : option DetectionResult;
  canvasRef : option Canvas
}.

(** The state after the first render: [useState(camera.id === "CAM-001")]
    for [isWebcamEnabled], [false] or [null] for the rest. *)
Definition initial (camera : Camera) (b : Webcam.Browser) : Feed :=
  mkFeed (b, Webcam.mkComponent None None None false (isMainCamera camera) None)
         false None None.

Definition withComponent (f : Feed) (c : Webcam.Component) : Feed :=
  mkFeed (fst (page f), c) (isPaused f) (detections f) (canvasRef f).

(** [toggleWebcam] *)
Definition toggleWebcam (camera : Camera) (f : Feed) : Feed :=
  if isMainCamera camera
  then
    let c := snd (page f) in
    withComponent f
      (Webcam.mkComponent (Webcam.streamRef c) (Webcam.videoRef c)
         (Webcam.detectionIntervalRef c) (Webcam.isWebcamActive c)
         (negb (Webcam.isWebcamEnabled c)) (Webcam.error c))
  else f.

(** The body of the first effect. *)
Definition webcamEffect (camera : Camera) (device : option nat) (f : Feed)
  : Feed * list Effect :=
  match camera_status camera with
  | online =>
      if Webcam.isWebcamEnabled (snd (page f)) && isMainCamera camera
      then
        let r := Webcam.initializeWebcam device (page f) in
        (mkFeed (fst r) (isPaused f) (detections f) (canvasRef f), snd r)
      else
        (mkFeed (Webcam.stopWebcam (page f)) (isPaused f) (detections f) (canvasRef f), [])
  | offline =>
      (mkFeed (Webcam.stopWebcam (page f)) (isPaused f) (detections f) (canvasRef f), [])
  end.

(** The cleanup of the first effect. *)
Definition cleanup (f : Feed) : Feed :=
  mkFeed (Webcam.stopWebcam (page f)) (isPaused f) (detections f) (canvasRef f).

(** [video.play()] and [video.pause()] as far as the [paused] flag goes. *)
Definition play (v : Webcam.HTMLVideoElement) : Webcam.HTMLVideoElement :=
  Webcam.mkVideo (Webcam.srcObject v) false (Webcam.hasData v).

Definition pause (v : Webcam.HTMLVideoElement) : Webcam.HTMLVideoElement :=
  Webcam.mkVideo (Webcam.srcObject v) true (Webcam.hasData v).

(** [togglePause]: the state variable is negated, and the element is
    played or paused according to the value before the call. *)
Definition togglePause (f : Feed) : Feed :=
  let c := snd (page f) in
  let video :=
    match Webcam.videoRef c with
    | Some v => Some (if isPaused f then play v else pause v)
    | None => None
    end in
  mkFeed (fst (page f),
          Webcam.mkComponent (Webcam.streamRef c) video
            (Webcam.detectionIntervalRef c) (Webcam.isWebcamActive c)
            (Webcam.isWebcamEnabled c) (Webcam.error c))
         (negb (isPaused f)) (detections f) (canvasRef f).

(** [Math.round]: to the nearest integer, halves upwards. *)
Definition mathRound (q : Q) : Z := Qfloor (q + (1 # 2)).

(** The label of the box of index [i]; a confidence that is absent or 0
    is falsy. *)
Definition boxLabel (i : nat) (box : BoundingBox) : string :=
  let n := string_of_count (Z.of_nat i + 1) in
  match confidence box with
  | Some c =>
      if Qeq_bool c 0
      then ("P" ++ n)%string
      else ("P" ++ n ++ " (" ++ string_of_count (mathRound (c * 100)) ++ "%)")%string
  | None => ("P" ++ n)%string
  end.

(** [boxes.forEach((box, i) => { ... })], from the index [i] on. *)
Fixpoint drawBoxes (i : nat) (boxes : list BoundingBox) (canvasWidth canvasHeight : Q)
  : list Drawing :=
  match boxes with
  | [] => []
  | box :: rest =>
      let x := (x box * canvasWidth)%Q in
      let y := (y box * canvasHeight)%Q in
      let width := (width box * canvasWidth)%Q in
      let height := (height box * canvasHeight)%Q in
      StrokeRect x y width height
      :: FillText (boxLabel i box) x (y - 5)%Q
      :: drawBoxes (S i) rest canvasWidth canvasHeight
  end.

(** [drawBoundingBoxes(ctx, boxes, canvasWidth, canvasHeight)] *)
Definition drawBoundingBoxes (ctx : Canvas) (boxes : list BoundingBox)
    (canvasWidth canvasHeight : Z) : Canvas :=
  mkCanvas (canvas_width ctx) (canvas_height ctx) (has2d ctx)
    "#00ffff" 3 "16px monospace" "#00ffff"
    (drawn ctx ++ drawBoxes 0 boxes (inject_Z canvasWidth) (inject_Z canvasHeight)).

(** What the video shows when a detection runs: its dimensions, and the
    outcome of [canvas.toDataURL("image/jpeg", 0.8)] after the frame has
    been drawn, a data URL or an exception with its message. *)
Inductive Capture : Type :=
| Captured (imageData : string)
| CaptureThrows (message : string).

(** [runDetection()], for the camera [camera_id]; [onDetectionUpdate] is
    the prop of that name, when the parent passes one; the second
    component of the result is the log of the run. The answer of the
    request is a [DetectionResult], as the return type of [detectCrowd]
    promises, and the callback returns normally (as
    [handleDetectionUpdate] of the camera page does): of the statements
    in the [try] block only the capture can then throw. An answer with
    status 200 that is not a [DetectionResult] (on which
    [drawBoundingBoxes] throws) and a callback that throws are not
    represented. *)
Definition runDetection (camera_id : string) (fetch : RequestBody -> FetchOutcome)
    (onDetectionUpdate : option (string -> DetectionResult -> list Effect))
    (videoWidth videoHeight : Z) (capture : Capture) (f : Feed)
  : Rand (Feed * list Effect) :=
  match Webcam.videoRef (snd (page f)), canvasRef f with
  | Some video, Some canvas =>
      if negb (has2d canvas) then ret (f, [])
      else
        let painted :=
          let c := resize videoWidth videoHeight canvas in
          mkCanvas (canvas_width c) (canvas_height c) (has2d c) (strokeStyle c)
                   (lineWidth c) (font c) (fillStyle c)
                   (drawn c ++ [DrawImage (canvas_width c) (canvas_height c)]) in
        match capture with
        | CaptureThrows message =>
            let c := snd (page f) in
            let error :=
              if decide (message <> "Failed to fetch"%string)
              then Some ("ML Error: " ++ message)%string
              else Webcam.error c in
            ret (mkFeed (fst (page f),
                         Webcam.mkComponent (Webcam.streamRef c) (Webcam.videoRef c)
                           (Webcam.detectionIntervalRef c) (Webcam.isWebcamActive c)
                           (Webcam.isWebcamEnabled c) error)
                        (isPaused f) (detections f) (Some painted),
                 [ConsoleError "Detection error:"])
        | Captured imageData =>
            let* r := Webcam.detectCrowd camera_id fetch imageData in
            let result := fst r in
            ret (mkFeed (page f) (isPaused f) (Some result)
                        (Some (drawBoundingBoxes painted (boundingBoxes result)
                                 (canvas_width painted) (canvas_height painted))),
                 snd r
                 ++ [ConsoleLog ("[ML] Camera " ++ camera_id ++ " response:")]
                 ++ match onDetectionUpdate with
                    | Some callback => callback camera_id result
                    | None => []
                    end)
        end
  | _, _ => ret (f, [])
  end.

(** What the user does and what React runs, one step at a time: the
    toggle button, the first effect (with the outcome of [getUserMedia],
    should it be called) and its cleanup, the [loadedmetadata] handler as
    far as it starts the detection timer, and the pause button. *)
Inductive Step : Type :=
| Toggle
| Effect1 (device : option nat)
| Cleanup
| StartDetection
| Pause.

Definition step (camera : Camera) (f : Feed) (s : Step) : Feed :=
  match s with
  | Toggle => toggleWebcam camera f
  | Effect1 device => fst (webcamEffect camera device f)
  | Cleanup => cleanup f
  | StartDetection =>
      mkFeed (Webcam.startDetection (page f)) (isPaused f) (detections f) (canvasRef f)
  | Pause => togglePause f
  end.

Definition run (camera : Camera) (steps : list Step) (f : Feed) : Feed :=
  foldl (step camera) f steps.

End Feed.

(** ** [app/dashboard/cameras/page.tsx], the parent of the component *)

(** [handleDetectionUpdate], passed to every [WebcamFeed] as
    [onDetectionUpdate]. *)
Definition handleDetectionUpdate (cameraId : string) (detections : DetectionResult)
  : list Effect :=
  [ConsoleLog ("[v0] Camera " ++ cameraId ++ " detected "
               ++ string_of_count (count detections) ++ " people with "
               ++ riskLevel_string (riskLevel detections) ++ " risk")].

(** ** Further notions about the component *)

(** The tracks of the stream the component holds. *)
Definition heldTracks (c : Webcam.Component) : list nat :=
  match Webcam.streamRef c with
  | Some stream => Webcam.getTracks stream
  | None => []
  end.

(** No track is live but those of the stream the component holds. *)
Definition noStrayTrack (s : Webcam.Browser * Webcam.Component) : Prop :=
  forall t : nat,
    Webcam.tracks (fst s) !! t = Some Webcam.live -> In t (heldTracks (snd s)).

(** A rectangle within a canvas of the given size. *)
Definition insideCanvas (canvasWidth canvasHeight : Q) (d : Feed.Drawing) : Prop :=
  match d with
  | Feed.StrokeRect x y w h =>
      (0 <= x)%Q /\ (0 <= y)%Q /\ (0 <= w)%Q /\ (0 <= h)%Q /\
      (x + w <= canvasWidth)%Q /\ (y + h <= canvasHeight)%Q
  | _ => True
  end.

(** The labels painted, in order. *)
Definition labels (ds : list Feed.Drawing) : list string :=
  omap (fun d => match d with Feed.FillText text _ _ => Some text | _ => None end) ds.

(** Two cameras of the dashboard, and a mounted component of the main
    camera: video element and canvas in place, nothing detected yet. *)
Definition mainEntrance : Feed.Camera :=
  Feed.mkCamera "CAM-001" "Main Entrance" "Building A - Ground Floor" Feed.online
                342 high 30 "1920x1080" 28.6139 77.209.

Definition foodCourt : Feed.Camera :=
  Feed.mkCamera "CAM-002" "Food Court" "Building B - 2nd Floor" Feed.online
                278 medium 30 "1920x1080" 28.6142 77.2095.

Definition mounted : Feed.Feed :=
  Feed.mkFeed capturing false None
    (Some (Feed.mkCanvas 300 150 true "#000000" 1 "10px sans-serif" "#000000" [])).

(** A component that has never held the webcam and is switched off: no
    stream, not active, not enabled, on a browser whose tracks and count
    of acquired streams are those of [b]. *)
Definition neverAcquired (b : Webcam.Browser) (f : Feed.Feed) : Prop :=
  Webcam.streamRef (snd (Feed.page f)) = None /\
  Webcam.isWebcamActive (snd (Feed.page f)) = false /\
  Webcam.isWebcamEnabled (snd (Feed.page f)) = false /\
  Webcam.acquired (fst (Feed.page f)) = Webcam.acquired b /\
  Webcam.tracks (fst (Feed.page f)) = Webcam.tracks b.

(** ** [app/api/detect-crowd/route.ts], mock revision without storage *)

Module PlainMockRoute.

(** The generator is [MockRoute.generateMockDetections], character for
    character; the handler differs from [MockRoute.POST] in the alert
    block, which sends the notification and stores nothing. *)
Definition POST (request : NextRequest) (env : Env)
  : Rand (NextResponse * list Effect) :=
  match json request with
  | None =>
      ret (mkResponse 500 (ErrorBody "Detection failed"),
           [ConsoleError "Detection API error:"])
  | Some b =>
      if falsy (image b)
      then ret (mkResponse 400 (ErrorBody "No image provided"), [])
      else
        let* mockDetections := MockRoute.generateMockDetections in
        ret (mkResponse 200 (Detections mockDetections),
             if decide (riskLevel mockDetections = high)
             then sendAlertToAndroidApp (alertEvent env (cameraId b) mockDetections)
             else [])
  end.

End PlainMockRoute.

(** ** The route as the browser sees it *)

(** [response.ok]: the status is in the range 200-299. *)
Definition responseOk (r : NextResponse) : bool :=
  (200 <=? status r) && (status r <=? 299).

(** What [fetch("/api/detect-crowd", ...)] resolves to once the route has
    answered [r]. An error body is no detection result; the route sends
    one with a status that is not OK only, and [detectCrowd] does not
    look at the body of such a response. *)
Definition fetched (r : NextResponse) : FetchOutcome :=
  FetchResolves (responseOk r) (status r)
    (match body r with
     | Detections d => Some d
     | ErrorBody _ => None
     end).

(** The browser's [fetch] when the route runs the inference revision in
    the environment [env], and when it runs the mock revision with the
    server's generator [gs]. *)
Definition overInference (env : Env) (b : RequestBody) : FetchOutcome :=
  fetched (fst (InferenceRoute.POST (mkRequest (Some b)) env)).

Definition overMock (env : Env) (gs : MathRandom) (b : RequestBody) : FetchOutcome :=
  fetched (fst (fst (MockRoute.POST (mkRequest (Some b)) env gs))).

(** What holds of every answer of the route: the status is 200, 400 or
    500; the body carries detections exactly when the status is 200; and
    an alert is sent or stored only with detections at high risk. *)
Definition wellFormedAnswer (r : NextResponse * list Effect) : Prop :=
  (status (fst r) = 200 \/ status (fst r) = 400 \/ status (fst r) = 500) /\
  (status (fst r) = 200 <-> exists d, body (fst r) = Detections d) /\
  (alertsSent (snd r) <> [] \/ docsStored (snd r) <> [] ->
   responseRisk (fst r) = Some high).

(** An answer in which every stored document is the one the route writes
    for the detections it answers with: it goes to [alerts], it names the
    camera of the request and the count of these detections, which are at
    high risk, and the answer pushes an alert for the same camera and
    count. *)
Definition pushedWithStore (request : NextRequest) (env : Env)
    (answer : NextResponse * list Effect) : Prop :=
  forall (c : string) (doc : AlertDoc),
    In (AddDoc c doc) (snd answer) ->
    exists d : DetectionResult,
      body (fst answer) = Detections d /\
      riskLevel d = high /\
      c = "alerts"%string /\
      doc = mkAlertDoc (requestCamera request) (count d) high false "Main Entrance"
              ("High risk detected: " ++ string_of_count (count d) ++ " people") /\
      In (AlertSent (mkAlert (requestCamera request) (count d) high (now env)))
         (snd answer).

(** The inference server is down. *)
Definition inferenceDown : Env :=
  mkEnv (fun _ => FetchRejects "connect ECONNREFUSED 127.0.0.1:5000")
        (fun _ => true) "2024-01-01T00:00:00.000Z".

(** * Properties *)

(** ** The classifiers *)

Example route_classify_samples :
  map MockRoute.classify [0; 6; 7; 10; 11; 15] = [low; low; medium; medium; high; high].
Proof. reflexivity. Qed.

Example webcam_classify_samples :
  map Webcam.classify [0; 4; 5; 7; 8; 10] = [low; low; medium; medium; high; high].
Proof. reflexivity. Qed.

Ltac classify_cases :=
  unfold MockRoute.classify, Webcam.classify;
  repeat match goal with
         | |- context [?a >? ?b] => destruct (Z.gtb_spec a b)
         end.

Lemma route_classify_banded : banded MockRoute.classify 7 11.
Proof.
  intro c. classify_cases; repeat split; intros; try lia; try discriminate.
Qed.

Lemma webcam_classify_banded : banded Webcam.classify 5 8.
Proof.
  intro c. classify_cases; repeat split; intros; try lia; try discriminate.
Qed.

(** C3, as amended. The classifiers are banded functions of the count, low
    below the medium threshold, medium from it and below the high
    threshold, high from the high threshold on; the thresholds are 7 and
    11 in the route and 5 and 8 in the webcam component. *)
Theorem classify_bands :
  banded MockRoute.classify 7 11 /\ banded Webcam.classify 5 8.
Proof. split; [apply route_classify_banded | apply webcam_classify_banded]. Qed.

(** C3, refuted as stated. No medium threshold in 5..6 and high threshold
    in 10..11 describe either classifier on the non-negative counts: the
    route calls 6 people low, the component calls 8 people high. *)
Lemma classify_default_ranges_fail :
  MockRoute.classify 6 = low /\
  Webcam.classify 8 = high /\
  ~ (exists m h, 5 <= m <= 6 /\ 10 <= h <= 11 /\
       forall count, 0 <= count ->
         (MockRoute.classify count = low <-> count < m) /\
         (MockRoute.classify count = medium <-> m <= count < h) /\
         (MockRoute.classify count = high <-> h <= count)) /\
  ~ (exists m h, 5 <= m <= 6 /\ 10 <= h <= 11 /\
       forall count, 0 <= count ->
         (Webcam.classify count = low <-> count < m) /\
         (Webcam.classify count = medium <-> m <= count < h) /\
         (Webcam.classify count = high <-> h <= count)).
Proof.
  split; [reflexivity |]. split; [reflexivity |]. split.
  - intros (m & h & Hm & _ & H).
    destruct (H 6 ltac:(lia)) as [Hlow _].
    assert (6 < m) by (apply Hlow; reflexivity). lia.
  - intros (m & h & _ & Hh & H).
    destruct (H 8 ltac:(lia)) as (_ & _ & Hhigh).
    assert (h <= 8) by (apply Hhigh; reflexivity). lia.
Qed.

(** Any classifier of the code's shape is monotone, whatever the two
    constants. *)
Lemma classifyWith_monotone (hi mid a b : Z) :
  a <= b -> risk_le (classifyWith hi mid a) (classifyWith hi mid b).
Proof.
  intros Hab. unfold risk_le, classifyWith.
  destruct (Z.gtb_spec a hi), (Z.gtb_spec b hi),
           (Z.gtb_spec a mid), (Z.gtb_spec b mid); simpl; lia.
Qed.

Lemma classify_shape (count : Z) :
  MockRoute.classify count = classifyWith 10 6 count /\
  Webcam.classify count = classifyWith 7 4 count.
Proof. split; reflexivity. Qed.

(** C5. Both classifiers are monotone: a larger count never gets a smaller
    risk level in the order low < medium < high; and so is any classifier
    of their shape, whatever its two thresholds. *)
Theorem classify_monotone (a b : Z) :
  a <= b ->
  risk_le (MockRoute.classify a) (MockRoute.classify b) /\
  risk_le (Webcam.classify a) (Webcam.classify b) /\
  (forall hi mid, risk_le (classifyWith hi mid a) (classifyWith hi mid b)).
Proof.
  intros Hab. split; [| split].
  - apply (classifyWith_monotone 10 6), Hab.
  - apply (classifyWith_monotone 7 4), Hab.
  - intros hi mid. apply classifyWith_monotone, Hab.
Qed.

Lemma classify_monotone_5_6 :
  5 <= 6 /\
  risk_le (MockRoute.classify 5) (MockRoute.classify 6) /\
  risk_le (Webcam.classify 5) (Webcam.classify 6) /\
  (forall hi mid, risk_le (classifyWith hi mid 5) (classifyWith hi mid 6)).
Proof.
  split; [lia | apply (classify_monotone 5 6); lia].
Defined.

(** ** [Math.random()] and the mock generators *)

Lemma bind_run {A B : Type} (m : Rand A) (k : A -> Rand B) (g : MathRandom) :
  bind m k g = k (fst (m g)) (snd (m g)).
Proof. unfold bind. destruct (m g); reflexivity. Qed.

Lemma unit_draws_advance (k : nat) (g : MathRandom) :
  unit_draws g -> unit_draws (advance k g).
Proof. intros H i. exact (H i). Qed.

Lemma agree_advance (k n : nat) (g1 g2 : MathRandom) :
  agree (k + n) g1 g2 -> agree n (advance k g1) (advance k g2).
Proof.
  intros [Hc H]. split; simpl.
  - congruence.
  - intros i Hi.
    replace (i + (k + cursor g1))%nat with ((i + k) + cursor g1)%nat by lia.
    replace (i + (k + cursor g2))%nat with ((i + k) + cursor g2)%nat by lia.
    apply H. lia.
Qed.

Lemma agree_weaken (n n' : nat) (g1 g2 : MathRandom) :
  (n' <= n)%nat -> agree n g1 g2 -> agree n' g1 g2.
Proof. intros Hn [Hc H]. split; [exact Hc |]. intros i Hi. apply H. lia. Qed.

Lemma agree_here (n : nat) (g1 g2 : MathRandom) (i : nat) :
  agree n g1 g2 -> (i < n)%nat ->
  samples g1 (i + cursor g1) = samples g2 (i + cursor g2).
Proof. intros [_ H] Hi. apply H, Hi. Qed.

Lemma advance_advance (j k : nat) (g : MathRandom) :
  advance j (advance k g) = advance (k + j) g.
Proof. unfold advance. simpl. f_equal. lia. Qed.

Lemma reads_arrayFrom {A : Type} (k n : nat) (f : Rand A) :
  reads k f -> reads (n * k) (arrayFrom n f).
Proof.
  intros [Hs Hv]. induction n as [| n [IHs IHv]].
  - split; [intros g; destruct g; reflexivity | reflexivity].
  - split.
    + intros g. simpl. rewrite !bind_run. simpl.
      rewrite IHs, Hs, advance_advance. reflexivity.
    + intros g1 g2 Hag. simpl. rewrite !bind_run. simpl. f_equal.
      * apply Hv. eapply agree_weaken; [| exact Hag]. lia.
      * rewrite !Hs. apply IHv. apply agree_advance. exact Hag.
Qed.

Lemma arrayFrom_length {A : Type} (n : nat) (f : Rand A) (g : MathRandom) :
  length (fst (arrayFrom n f g)) = n.
Proof.
  revert g. induction n as [| n IH]; intros g; [reflexivity |].
  simpl. rewrite !bind_run. simpl. rewrite IH. reflexivity.
Qed.

Lemma route_mockBox_reads : reads 5 MockRoute.mockBox.
Proof.
  split; [reflexivity |]. intros g1 g2 Hag.
  pose proof (agree_here _ _ _ 0 Hag ltac:(lia)) as H0.
  pose proof (agree_here _ _ _ 1 Hag ltac:(lia)) as H1.
  pose proof (agree_here _ _ _ 2 Hag ltac:(lia)) as H2.
  pose proof (agree_here _ _ _ 3 Hag ltac:(lia)) as H3.
  pose proof (agree_here _ _ _ 4 Hag ltac:(lia)) as H4.
  simpl in *. rewrite H0, H1, H2, H3, H4. reflexivity.
Qed.

Lemma webcam_mockBox_reads : reads 4 Webcam.mockBox.
Proof.
  split; [reflexivity |]. intros g1 g2 Hag.
  pose proof (agree_here _ _ _ 0 Hag ltac:(lia)) as H0.
  pose proof (agree_here _ _ _ 1 Hag ltac:(lia)) as H1.
  pose proof (agree_here _ _ _ 2 Hag ltac:(lia)) as H2.
  pose proof (agree_here _ _ _ 3 Hag ltac:(lia)) as H3.
  simpl in *. rewrite H0, H1, H2, H3. reflexivity.
Qed.

(** [Math.floor(r * n) + 1] lies in 1..n for a draw [r] of [0, 1). *)
Lemma floor_scaled_bounds (r : Q) (n : Z) :
  0 < n -> (0 <= r)%Q -> (r < 1)%Q -> 1 <= floor_scaled r n <= n.
Proof.
  intros Hn H0 H1. unfold floor_scaled.
  assert (Hpos : (0 < inject_Z n)%Q) by (rewrite (Zlt_Qlt 0 n) in Hn; exact Hn).
  assert (Hlo : (inject_Z 0 <= r * inject_Z n)%Q).
  { apply Qmult_le_0_compat; [exact H0 | apply Qlt_le_weak, Hpos]. }
  assert (Hhi : (r * inject_Z n < inject_Z n)%Q).
  { apply Qlt_le_trans with (1 * inject_Z n)%Q.
    - apply Qmult_lt_compat_r; assumption.
    - rewrite Qmult_1_l. apply Qle_refl. }
  apply Qfloor_resp_le in Hlo. rewrite Qfloor_Z in Hlo.
  pose proof (Qfloor_le (r * inject_Z n)) as Hfl.
  assert (Hlt : (inject_Z (Qfloor (r * inject_Z n)) < inject_Z n)%Q)
    by (eapply Qle_lt_trans; eassumption).
  rewrite <- Zlt_Qlt in Hlt. lia.
Qed.

Lemma route_generate_run (g : MathRandom) :
  fst (MockRoute.generateMockDetections g) =
  let count := floor_scaled (samples g (cursor g)) 15 in
  mkResult count (MockRoute.classify count)
    (fst (arrayFrom (toLength count) MockRoute.mockBox (advance 1 g))).
Proof.
  unfold MockRoute.generateMockDetections. rewrite !bind_run. reflexivity.
Qed.

Lemma webcam_generate_run (g : MathRandom) :
  fst (Webcam.generateMockDetections g) =
  let count := floor_scaled (samples g (cursor g)) 10 in
  mkResult count (Webcam.classify count)
    (fst (arrayFrom (toLength count) Webcam.mockBox (advance 1 g))).
Proof.
  unfold Webcam.generateMockDetections. rewrite !bind_run. reflexivity.
Qed.

Lemma route_generate_count (g : MathRandom) :
  unit_draws g ->
  let d := fst (MockRoute.generateMockDetections g) in
  1 <= count d <= 15 /\ Z.of_nat (length (boundingBoxes d)) = count d.
Proof.
  intros Hg. rewrite route_generate_run. simpl.
  destruct (Hg (cursor g)) as [H0 H1].
  pose proof (floor_scaled_bounds _ 15 ltac:(lia) H0 H1) as Hb.
  split; [exact Hb |].
  rewrite arrayFrom_length. unfold toLength. lia.
Qed.

Lemma webcam_generate_count (g : MathRandom) :
  unit_draws g ->
  let d := fst (Webcam.generateMockDetections g) in
  1 <= count d <= 10 /\ Z.of_nat (length (boundingBoxes d)) = count d.
Proof.
  intros Hg. rewrite webcam_generate_run. simpl.
  destruct (Hg (cursor g)) as [H0 H1].
  pose proof (floor_scaled_bounds _ 10 ltac:(lia) H0 H1) as Hb.
  split; [exact Hb |].
  rewrite arrayFrom_length. unfold toLength. lia.
Qed.

(** C10. Whatever [Math.random()] draws, the mock generator of the route
    reports between 1 and 15 people and the generator of the component
    between 1 and 10, each with as many bounding boxes as people: a frame
    served by a mock generator never reports zero people. *)
Theorem mock_count_positive (g : MathRandom) :
  unit_draws g ->
  (let d := fst (MockRoute.generateMockDetections g) in
   1 <= count d <= 15 /\ Z.of_nat (length (boundingBoxes d)) = count d) /\
  (let d := fst (Webcam.generateMockDetections g) in
   1 <= count d <= 10 /\ Z.of_nat (length (boundingBoxes d)) = count d).
Proof.
  intros Hg. split; [apply route_generate_count | apply webcam_generate_count];
    exact Hg.
Qed.

Lemma unit_draws_constant_half : unit_draws (constant_draws 0.5).
Proof. intros i. simpl. split; [discriminate | reflexivity]. Qed.

Lemma mock_count_positive_half :
  unit_draws (constant_draws 0.5) /\
  (let d := fst (MockRoute.generateMockDetections (constant_draws 0.5)) in
   1 <= count d <= 15 /\ Z.of_nat (length (boundingBoxes d)) = count d) /\
  (let d := fst (Webcam.generateMockDetections (constant_draws 0.5)) in
   1 <= count d <= 10 /\ Z.of_nat (length (boundingBoxes d)) = count d).
Proof.
  split; [exact unit_draws_constant_half |].
  apply (mock_count_positive (constant_draws 0.5)).
  intros i. simpl. split; [discriminate | reflexivity].
Defined.

Example route_mock_at_0_9 :
  let d := fst (MockRoute.generateMockDetections (constant_draws 0.9)) in
  count d = 14 /\ riskLevel d = high /\ length (boundingBoxes d) = 14%nat.
Proof. vm_compute. repeat split. Qed.

Example webcam_mock_at_0 :
  let d := fst (Webcam.generateMockDetections (constant_draws 0)) in
  count d = 1 /\ riskLevel d = low /\
  match boundingBoxes d with
  | [b] => (x b == 0.1 /\ y b == 0.1 /\ width b == 0.1 /\ height b == 0.15)%Q
           /\ confidence b = None
  | _ => False
  end.
Proof. vm_compute. repeat split. Qed.

(** ** Same draws, same detections *)



Lemma route_POST_run (request : NextRequest) (env : Env) (g : MathRandom) :
  fst (MockRoute.POST request env g) =
  match json request with
  | None => (mkResponse 500 (ErrorBody "Detection failed"),
             [ConsoleError "Detection API error:"])
  | Some b =>
      if falsy (image b)
      then (mkResponse 400 (ErrorBody "No image provided"), [])
      else
        let d := fst (MockRoute.generateMockDetections g) in
        (mkResponse 200 (Detections d), checkAlert env (cameraId b) d)
  end.
Proof.
  unfold MockRoute.POST. destruct (json request) as [b |]; [| reflexivity].
  destruct (falsy (image b)); [reflexivity |].
  rewrite bind_run. reflexivity.
Qed.

Lemma detectCrowd_run (camera_id : string) (fetch : RequestBody -> FetchOutcome)
    (imageData : string) (g : MathRandom) :
  fst (Webcam.detectCrowd camera_id fetch imageData g) =
  match fetch (mkBody (Some imageData) (Some camera_id)) with
  | FetchResolves true _ (Some d) => (d, [])
  | _ => (fst (Webcam.generateMockDetections g), [ConsoleError "ML API error:"])
  end.
Proof.
  unfold Webcam.detectCrowd.
  destruct (fetch _) as [? | [] ? [d |]]; try reflexivity;
    rewrite bind_run; reflexivity.
Qed.

(** ** The detection call of the component *)

Lemma detectCrowd_fallback (camera_id : string) (fetch : RequestBody -> FetchOutcome)
    (imageData : string) (g : MathRandom) :
  Webcam.callFails (fetch (mkBody (Some imageData) (Some camera_id))) = true ->
  fst (Webcam.detectCrowd camera_id fetch imageData g) =
  (fst (Webcam.generateMockDetections g), [ConsoleError "ML API error:"]).
Proof.
  intros Hf. rewrite detectCrowd_run.
  destruct (fetch _) as [? | [] ? [d |]]; try reflexivity. discriminate Hf.
Qed.

(** C1, as amended. When the call to the detection route fails ([fetch]
    rejects, the response is not OK, or its body cannot be read), the
    detection step logs the error and returns the result of the
    component's mock generator: between 1 and 10 people, with as many
    bounding boxes. *)
Theorem failed_call_falls_back (camera_id : string)
    (fetch : RequestBody -> FetchOutcome) (imageData : string) (g : MathRandom) :
  unit_draws g ->
  Webcam.callFails (fetch (mkBody (Some imageData) (Some camera_id))) = true ->
  let r := fst (Webcam.detectCrowd camera_id fetch imageData g) in
  r = (fst (Webcam.generateMockDetections g), [ConsoleError "ML API error:"]) /\
  1 <= count (fst r) <= 10 /\
  Z.of_nat (length (boundingBoxes (fst r))) = count (fst r).
Proof.
  intros Hg Hf. cbv zeta. rewrite (detectCrowd_fallback _ _ _ _ Hf).
  split; [reflexivity |]. apply (webcam_generate_count g Hg).
Qed.

Lemma failed_call_falls_back_unreachable :
  unit_draws (constant_draws 0.5) /\
  Webcam.callFails (unreachable (mkBody (Some "data:image/jpeg;base64,") (Some "CAM-001"))) = true /\
  let r := fst (Webcam.detectCrowd "CAM-001" unreachable "data:image/jpeg;base64,"
                  (constant_draws 0.5)) in
  r = (fst (Webcam.generateMockDetections (constant_draws 0.5)),
       [ConsoleError "ML API error:"]) /\
  1 <= count (fst r) <= 10 /\
  Z.of_nat (length (boundingBoxes (fst r))) = count (fst r).
Proof.
  split; [intros i; simpl; split; [discriminate | reflexivity] |].
  split; [reflexivity |].
  apply (failed_call_falls_back "CAM-001" unreachable "data:image/jpeg;base64,"
           (constant_draws 0.5)).
  - intros i. simpl. split; [discriminate | reflexivity].
  - reflexivity.
Defined.

(** C1, refuted as stated. With the route unreachable and [Math.random()]
    drawing 0.5, the detection step returns 6 people and 6 bounding boxes
    for the frame, not an empty detection list. *)
Lemma failed_call_reports_people :
  let d := fst (fst (Webcam.detectCrowd "CAM-001" unreachable "data:image/jpeg;base64,"
                       (constant_draws 0.5))) in
  Webcam.callFails (unreachable (mkBody (Some "data:image/jpeg;base64,") (Some "CAM-001"))) = true /\
  count d = 6 /\
  length (boundingBoxes d) = 6%nat /\
  ~ (forall camera_id fetch imageData g,
       unit_draws g ->
       Webcam.callFails (fetch (mkBody (Some imageData) (Some camera_id))) = true ->
       let d := fst (fst (Webcam.detectCrowd camera_id fetch imageData g)) in
       count d = 0 /\ boundingBoxes d = []).
Proof.
  split; [reflexivity |]. split; [vm_compute; reflexivity |].
  split; [vm_compute; reflexivity |].
  intros H.
  destruct (H "CAM-001"%string unreachable "data:image/jpeg;base64,"%string
              (constant_draws 0.5) unit_draws_constant_half eq_refl) as [Hc _].
  vm_compute in Hc. discriminate Hc.
Qed.

(** ** Confidence and overlap of the mock detections *)

Lemma route_mockBox_confidence (g : MathRandom) :
  unit_draws g ->
  exists c, confidence (fst (MockRoute.mockBox g)) = Some c /\
            (0.7 <= c)%Q /\ (c < 1)%Q.
Proof.
  intros Hg. eexists. split; [reflexivity |].
  destruct (Hg (S (S (S (S (cursor g)))))) as [H0 H1].
  simpl. split; lra.
Qed.

Lemma route_boxes_confidence (n : nat) (g : MathRandom) (b : BoundingBox) :
  unit_draws g ->
  In b (fst (arrayFrom n MockRoute.mockBox g)) ->
  exists c, confidence b = Some c /\ (0.7 <= c)%Q /\ (c < 1)%Q.
Proof.
  revert g. induction n as [| n IH]; intros g Hg Hin; [destruct Hin |].
  simpl in Hin. rewrite !bind_run in Hin. simpl in Hin.
  destruct Hin as [<- | Hin].
  - apply (route_mockBox_confidence g Hg).
  - apply (IH (advance 5 g)); [apply unit_draws_advance, Hg | exact Hin].
Qed.

(** C7, as amended. Every detection the route's mock generator returns
    carries a confidence between 0.7 and 1, hence within [0, 1]. (The
    generator draws the boxes independently of each other and suppresses
    none: nothing bounds their overlap.) *)
Theorem mock_confidence_in_unit (g : MathRandom) :
  unit_draws g ->
  confidencesWithin 0.7 1 (fst (MockRoute.generateMockDetections g)) /\
  confidencesWithin 0 1 (fst (MockRoute.generateMockDetections g)).
Proof.
  intros Hg.
  assert (H : forall b,
             In b (boundingBoxes (fst (MockRoute.generateMockDetections g))) ->
             exists c, confidence b = Some c /\ (0.7 <= c)%Q /\ (c < 1)%Q).
  { intros b Hin. rewrite route_generate_run in Hin. simpl in Hin.
    eapply route_boxes_confidence; [| exact Hin].
    apply unit_draws_advance, Hg. }
  split; intros b Hin; destruct (H b Hin) as (c & Hc & Hlo & Hhi);
    exists c; (split; [exact Hc |]); split; lra.
Qed.

Lemma mock_confidence_in_unit_half :
  unit_draws (constant_draws 0.5) /\
  confidencesWithin 0.7 1 (fst (MockRoute.generateMockDetections (constant_draws 0.5))) /\
  confidencesWithin 0 1 (fst (MockRoute.generateMockDetections (constant_draws 0.5))).
Proof.
  split; [intros i; simpl; split; [discriminate | reflexivity] |].
  apply (mock_confidence_in_unit (constant_draws 0.5)).
  intros i. simpl. split; [discriminate | reflexivity].
Defined.

(** C7, refuted as stated. When [Math.random()] draws 0.5 throughout, the
    route returns 8 detections with one and the same box: the first two
    overlap with an IoU of 1, above the threshold of 0.45. *)
Lemma mock_boxes_overlap :
  let d := fst (MockRoute.generateMockDetections (constant_draws 0.5)) in
  count d = 8 /\
  (exists a b,
     boundingBoxes d !! 0%nat = Some a /\ boundingBoxes d !! 1%nat = Some b /\
     (iou a b == 1)%Q /\ (iou_threshold < iou a b)%Q) /\
  ~ (forall g, unit_draws g ->
       confidencesWithin 0 1 (fst (MockRoute.generateMockDetections g)) /\
       suppressed (fst (MockRoute.generateMockDetections g))).
Proof.
  cbv zeta. split; [vm_compute; reflexivity |].
  assert (Hov : exists a b,
             boundingBoxes (fst (MockRoute.generateMockDetections (constant_draws 0.5)))
               !! 0%nat = Some a /\
             boundingBoxes (fst (MockRoute.generateMockDetections (constant_draws 0.5)))
               !! 1%nat = Some b /\
             (iou a b == 1)%Q /\ (iou_threshold < iou a b)%Q).
  { eexists. eexists. split; [vm_compute; reflexivity |].
    split; [vm_compute; reflexivity |].
    split; vm_compute; reflexivity. }
  split; [exact Hov |].
  intros H. destruct (H _ unit_draws_constant_half) as [_ Hs].
  destruct Hov as (a & b & Ha & Hb & _ & Hlt).
  specialize (Hs 0%nat 1%nat a b ltac:(lia) Ha Hb).
  apply (Qlt_not_le _ _ Hlt Hs).
Qed.

(** ** Alerts of the route *)

Lemma checkAlert_alerts (env : Env) (cam : option string) (d : DetectionResult) :
  alertsSent (checkAlert env cam d) =
  if decide (riskLevel d = high) then [alertEvent env cam d] else [].
Proof.
  unfold checkAlert, storeAlert. destruct (decide (riskLevel d = high)); [| reflexivity].
  destruct (addDoc env _); reflexivity.
Qed.

Lemma inference_POST_alerts (request : NextRequest) (env : Env) (d : DetectionResult) :
  body (fst (InferenceRoute.POST request env)) = Detections d ->
  alertsSent (snd (InferenceRoute.POST request env)) =
  if decide (riskLevel d = high) then [alertEvent env (requestCamera request) d] else [].
Proof.
  unfold InferenceRoute.POST, requestCamera, InferenceRoute.detectionFailed.
  destruct (json request) as [b |]; [| discriminate].
  destruct (falsy (image b)); [discriminate |].
  destruct (fetch env _) as [? | [] ? [d' |]]; try discriminate.
  simpl. intros [= ->]. apply checkAlert_alerts.
Qed.

Lemma mock_POST_alerts (request : NextRequest) (env : Env) (g : MathRandom)
    (d : DetectionResult) :
  body (fst (fst (MockRoute.POST request env g))) = Detections d ->
  alertsSent (snd (fst (MockRoute.POST request env g))) =
  if decide (riskLevel d = high) then [alertEvent env (requestCamera request) d] else [].
Proof.
  rewrite route_POST_run. unfold requestCamera.
  destruct (json request) as [b |]; [| discriminate].
  destruct (falsy (image b)); [discriminate |].
  simpl. intros [= <-]. apply checkAlert_alerts.
Qed.

Lemma inference_serve_level (frames : list (NextRequest * Env)) :
  levelTriggered frames (InferenceRoute.serve frames).
Proof.
  intros i r d Hr Hd. unfold InferenceRoute.serve in Hr.
  rewrite list_lookup_fmap in Hr.
  destruct (frames !! i) as [[request env] |] eqn:Hf; [| discriminate].
  simpl in Hr. injection Hr as <-.
  exists request, env. split; [reflexivity |].
  apply inference_POST_alerts, Hd.
Qed.

Lemma mock_serve_cons (request : NextRequest) (env : Env)
    (rest : list (NextRequest * Env)) (g : MathRandom) :
  fst (MockRoute.serve ((request, env) :: rest) g) =
  fst (MockRoute.POST request env g)
  :: fst (MockRoute.serve rest (snd (MockRoute.POST request env g))).
Proof. simpl. rewrite !bind_run. reflexivity. Qed.

Lemma mock_serve_level (frames : list (NextRequest * Env)) (g : MathRandom) :
  levelTriggered frames (fst (MockRoute.serve frames g)).
Proof.
  revert g. induction frames as [| [request env] rest IH]; intros g i r d Hr Hd.
  - destruct i; discriminate Hr.
  - rewrite mock_serve_cons in Hr. destruct i as [| i].
    + injection Hr as <-. exists request, env. split; [reflexivity |].
      apply mock_POST_alerts, Hd.
    + apply (IH _ i r d Hr Hd).
Qed.

(** C2, as amended. Alerting is level-triggered: in every sequence of
    frames served by the route (either revision), each frame whose risk
    level is high emits one alert event carrying the camera, the count,
    the risk level and the time of that request, whatever the risk level
    of the frame before it; a frame at another level emits none. *)
Theorem alerts_level_triggered (frames : list (NextRequest * Env)) (g : MathRandom) :
  levelTriggered frames (InferenceRoute.serve frames) /\
  levelTriggered frames (fst (MockRoute.serve frames g)).
Proof. split; [apply inference_serve_level | apply mock_serve_level]. Qed.

(** C2, refuted as stated. Two frames at high risk served in a row: the
    second emits an alert although the frame before it was already at
    high risk, with the inference server reporting 12 people as well as
    with the mock generator drawing 0.9 (14 people). *)
Lemma alerts_repeat_on_consecutive_high :
  let frames := [(frameRequest, crowdedEnv true); (frameRequest, crowdedEnv true)] in
  map (fun r => (responseRisk (fst r), length (alertsSent (snd r))))
      (InferenceRoute.serve frames)
    = [(Some high, 1%nat); (Some high, 1%nat)] /\
  map (fun r => (responseRisk (fst r), length (alertsSent (snd r))))
      (fst (MockRoute.serve frames (constant_draws 0.9)))
    = [(Some high, 1%nat); (Some high, 1%nat)] /\
  ~ edgeTriggered (InferenceRoute.serve frames) /\
  ~ edgeTriggered (fst (MockRoute.serve frames (constant_draws 0.9))).
Proof.
  cbv zeta. split; [reflexivity |]. split; [vm_compute; reflexivity |].
  split; intros H.
  - refine (H 0%nat _ _ eq_refl eq_refl eq_refl _ eq_refl). discriminate.
  - eapply (H 0%nat).
    + vm_compute. reflexivity.
    + vm_compute. reflexivity.
    + reflexivity.
    + discriminate.
    + reflexivity.
Qed.

Lemma alerts_level_triggered_second_frame :
  let frames := [(frameRequest, crowdedEnv true); (frameRequest, crowdedEnv true)] in
  exists request env,
    frames !! 1%nat = Some (request, env) /\
    alertsSent (snd (InferenceRoute.POST frameRequest (crowdedEnv true))) =
      if decide (riskLevel crowded = high)
      then [alertEvent env (requestCamera request) crowded]
      else [].
Proof.
  cbv zeta.
  apply (proj1 (alerts_level_triggered
                  [(frameRequest, crowdedEnv true); (frameRequest, crowdedEnv true)]
                  (constant_draws 0.9))
               1%nat (InferenceRoute.POST frameRequest (crowdedEnv true)) crowded);
    reflexivity.
Defined.

(** ** A failing Firestore write *)

Lemma inference_store_fails (b : RequestBody) (env : Env) (st : Z)
    (d : DetectionResult) :
  falsy (image b) = false ->
  fetch env (mkBody (image b) (cameraId b)) = FetchResolves true st (Some d) ->
  riskLevel d = high ->
  addDoc env (alertDoc (cameraId b) d) = false ->
  InferenceRoute.POST (mkRequest (Some b)) env =
  (mkResponse 200 (Detections d),
   [ConsoleError "Error storing alert in Firestore:";
    AlertSent (alertEvent env (cameraId b) d)]).
Proof.
  intros Hi Hf Hh Hs. unfold InferenceRoute.POST. simpl.
  rewrite Hi, Hf. unfold checkAlert, storeAlert.
  destruct (decide (riskLevel d = high)); [| contradiction].
  rewrite Hs. reflexivity.
Qed.

Lemma inference_store_irrelevant (request : NextRequest) (env : Env)
    (store : AlertDoc -> bool) :
  fst (InferenceRoute.POST request (mkEnv (fetch env) store (now env))) =
  fst (InferenceRoute.POST request env).
Proof.
  unfold InferenceRoute.POST. destruct (json request) as [b |]; [| reflexivity].
  destruct (falsy (image b)); [reflexivity |]. simpl.
  destruct (fetch env _) as [? | [] ? [d |]]; reflexivity.
Qed.

Lemma mock_store_fails (b : RequestBody) (env : Env) (g : MathRandom) :
  falsy (image b) = false ->
  riskLevel (fst (MockRoute.generateMockDetections g)) = high ->
  addDoc env (alertDoc (cameraId b) (fst (MockRoute.generateMockDetections g))) = false ->
  fst (MockRoute.POST (mkRequest (Some b)) env g) =
  (mkResponse 200 (Detections (fst (MockRoute.generateMockDetections g))),
   [ConsoleError "Error storing alert in Firestore:";
    AlertSent (alertEvent env (cameraId b) (fst (MockRoute.generateMockDetections g)))]).
Proof.
  intros Hi Hh Hs. rewrite route_POST_run. simpl. rewrite Hi. cbv zeta.
  unfold checkAlert, storeAlert.
  destruct (decide (riskLevel _ = high)); [| contradiction].
  rewrite Hs. reflexivity.
Qed.

Lemma mock_store_irrelevant (request : NextRequest) (env : Env)
    (store : AlertDoc -> bool) (g : MathRandom) :
  fst (fst (MockRoute.POST request (mkEnv (fetch env) store (now env)) g)) =
  fst (fst (MockRoute.POST request env g)).
Proof.
  rewrite !route_POST_run. destruct (json request) as [b |]; [| reflexivity].
  destruct (falsy (image b)); reflexivity.
Qed.

(** C8. A failing Firestore write does not fail the request. When the
    detections are at high risk and [addDoc] rejects, the route (either
    revision) logs the error, still sends the alert, and answers with
    status 200 and the detections unchanged; and the response of any
    request is the same whether Firestore accepts or rejects the write. *)
Theorem firestore_failure_absorbed (b : RequestBody) (env : Env) (g : MathRandom) :
  falsy (image b) = false ->
  (forall doc, addDoc env doc = false) ->
  (forall st d,
     fetch env (mkBody (image b) (cameraId b)) = FetchResolves true st (Some d) ->
     riskLevel d = high ->
     InferenceRoute.POST (mkRequest (Some b)) env =
     (mkResponse 200 (Detections d),
      [ConsoleError "Error storing alert in Firestore:";
       AlertSent (alertEvent env (cameraId b) d)])) /\
  (riskLevel (fst (MockRoute.generateMockDetections g)) = high ->
   fst (MockRoute.POST (mkRequest (Some b)) env g) =
   (mkResponse 200 (Detections (fst (MockRoute.generateMockDetections g))),
    [ConsoleError "Error storing alert in Firestore:";
     AlertSent (alertEvent env (cameraId b) (fst (MockRoute.generateMockDetections g)))])) /\
  (forall store,
     fst (InferenceRoute.POST (mkRequest (Some b)) (mkEnv (fetch env) store (now env))) =
     fst (InferenceRoute.POST (mkRequest (Some b)) env) /\
     fst (fst (MockRoute.POST (mkRequest (Some b)) (mkEnv (fetch env) store (now env)) g)) =
     fst (fst (MockRoute.POST (mkRequest (Some b)) env g))).
Proof.
  intros Hi Hs. split; [| split].
  - intros st d Hf Hh. apply (inference_store_fails b env st d Hi Hf Hh), Hs.
  - intros Hh. apply (mock_store_fails b env g Hi Hh), Hs.
  - intros store. split;
      [apply inference_store_irrelevant | apply mock_store_irrelevant].
Qed.

Lemma firestore_failure_absorbed_crowded :
  InferenceRoute.POST frameRequest (crowdedEnv false) =
  (mkResponse 200 (Detections crowded),
   [ConsoleError "Error storing alert in Firestore:";
    AlertSent (mkAlert (Some "CAM-001") 12 high "2024-01-01T00:00:00.000Z")]) /\
  fst (InferenceRoute.POST frameRequest (crowdedEnv true)) =
  fst (InferenceRoute.POST frameRequest (crowdedEnv false)).
Proof.
  destruct (firestore_failure_absorbed
              (mkBody (Some "data:image/jpeg;base64,") (Some "CAM-001"))
              (crowdedEnv false) (constant_draws 0.9) eq_refl (fun _ => eq_refl))
    as (Hinf & _ & Hany).
  split.
  - apply (Hinf 200 crowded eq_refl eq_refl).
  - apply (proj1 (Hany (fun _ => true))).
Defined.

Example stored_alert_when_firestore_accepts :
  snd (InferenceRoute.POST frameRequest (crowdedEnv true)) =
  [AddDoc "alerts"
     (mkAlertDoc (Some "CAM-001") 12 high false "Main Entrance"
                 "High risk detected: 12 people");
   ConsoleLog "Alert stored in Firestore";
   AlertSent (mkAlert (Some "CAM-001") 12 high "2024-01-01T00:00:00.000Z")].
Proof. reflexivity. Qed.

(** ** Zero detections *)

Lemma groupsDetections_nil
    (cluster : list BoundingBox -> list (list BoundingBox)) :
  groupsDetections cluster -> cluster [] = [].
Proof.
  intros H. destruct (cluster []) as [| c cs] eqn:E; [reflexivity | exfalso].
  destruct (H [] c) as [Hne Hin]; [rewrite E; left; reflexivity |].
  destruct c as [| p c]; [apply Hne; reflexivity |].
  apply (Hin p). left. reflexivity.
Qed.

Lemma oneGroup_groupsDetections : groupsDetections oneGroup.
Proof.
  intros [| p ds] c Hin; simpl in Hin; [destruct Hin |].
  destruct Hin as [<- | []]. split; [discriminate | auto].
Qed.

(** C4. A frame with zero detections has [total_people = 0],
    [num_groups = 0] and [density_level = low], whichever of the two
    classifiers sets the level and whatever clusterer groups the
    detections; both classifiers call a count of 0 low; and the component
    displays 0 people when it holds no detection result, or a result with
    count 0. *)
Theorem zero_detections_metrics
    (cluster : list BoundingBox -> list (list BoundingBox)) :
  groupsDetections cluster ->
  frameMetrics cluster MockRoute.classify [] = mkMetrics 0 0 low /\
  frameMetrics cluster Webcam.classify [] = mkMetrics 0 0 low /\
  MockRoute.classify 0 = low /\
  Webcam.classify 0 = low /\
  Webcam.displayedCount None = 0 /\
  (forall d, count d = 0 -> Webcam.displayedCount (Some d) = 0).
Proof.
  intros H. unfold frameMetrics. rewrite (groupsDetections_nil cluster H).
  repeat split. intros d Hd. simpl. rewrite Hd. reflexivity.
Qed.

Lemma zero_detections_metrics_oneGroup :
  groupsDetections oneGroup /\
  frameMetrics oneGroup MockRoute.classify [] = mkMetrics 0 0 low /\
  frameMetrics oneGroup Webcam.classify [] = mkMetrics 0 0 low /\
  MockRoute.classify 0 = low /\
  Webcam.classify 0 = low /\
  Webcam.displayedCount None = 0 /\
  (forall d, count d = 0 -> Webcam.displayedCount (Some d) = 0).
Proof.
  split; [exact oneGroup_groupsDetections |].
  apply (zero_detections_metrics oneGroup).
  intros [| p ds] c Hin; simpl in Hin; [destruct Hin |].
  destruct Hin as [<- | []]. split; [discriminate | auto].
Defined.

(** ** Stopping and starting the capture *)

Lemma stopTracks_ended (ts : list nat) (m : gmap nat Webcam.ReadyState) (t : nat) :
  In t ts \/ m !! t = Some Webcam.ended ->
  Webcam.stopTracks ts m !! t = Some Webcam.ended.
Proof.
  revert m. induction ts as [| t' ts IH]; intros m H; simpl.
  - destruct H as [[] | H]. exact H.
  - apply IH. destruct H as [[-> | Hin] | Hm].
    + right. apply lookup_insert_eq.
    + left. exact Hin.
    + right. destruct (decide (t' = t)) as [-> | Hne].
      * apply lookup_insert_eq.
      * rewrite lookup_insert_ne by exact Hne. exact Hm.
Qed.

Lemma stopWebcam_idempotent (s : Webcam.Browser * Webcam.Component) :
  Webcam.stopWebcam (Webcam.stopWebcam s) = Webcam.stopWebcam s.
Proof.
  destruct s as [b c]. unfold Webcam.stopWebcam. simpl.
  destruct (Webcam.videoRef c), (Webcam.detectionIntervalRef c),
           (Webcam.streamRef c); reflexivity.
Qed.

Lemma stopWebcam_released (s : Webcam.Browser * Webcam.Component) :
  released s (Webcam.stopWebcam s).
Proof.
  destruct s as [b c]. unfold released, Webcam.stopWebcam. simpl.
  repeat split.
  - intros stream t Hs Hin. rewrite Hs.
    destruct (Webcam.detectionIntervalRef c); simpl;
      apply stopTracks_ended; left; exact Hin.
  - intros id Hid. rewrite Hid. simpl. intros Hin.
    apply elem_of_difference in Hin as [_ Hn].
    apply Hn, elem_of_singleton. reflexivity.
Qed.

Lemma initializeWebcam_held (device : option nat)
    (s : Webcam.Browser * Webcam.Component) (stream : Webcam.MediaStream) :
  Webcam.streamRef (snd s) = Some stream ->
  Webcam.initializeWebcam device s = (s, []).
Proof.
  destruct s as [b c]. simpl. intros Hs. unfold Webcam.initializeWebcam.
  rewrite Hs. reflexivity.
Qed.

(** C9. Stopping twice leaves the state that stopping once leaves: every
    track of the held stream ended, the stream reference cleared, the
    detection timer cleared and its handle dropped. Starting while a
    stream is held changes nothing: [getUserMedia] is not called and no
    second stream is acquired. *)
Theorem stop_idempotent_start_guarded (s : Webcam.Browser * Webcam.Component) :
  Webcam.stopWebcam (Webcam.stopWebcam s) = Webcam.stopWebcam s /\
  released s (Webcam.stopWebcam s) /\
  (forall device stream,
     Webcam.streamRef (snd s) = Some stream ->
     Webcam.initializeWebcam device s = (s, []) /\
     Webcam.acquired (fst (fst (Webcam.initializeWebcam device s))) =
     Webcam.acquired (fst s)).
Proof.
  split; [apply stopWebcam_idempotent |]. split; [apply stopWebcam_released |].
  intros device stream Hs.
  rewrite (initializeWebcam_held device s stream Hs). split; reflexivity.
Qed.

Lemma stop_idempotent_start_guarded_capturing :
  Webcam.stopWebcam (Webcam.stopWebcam capturing) = Webcam.stopWebcam capturing /\
  Webcam.tracks (fst (Webcam.stopWebcam capturing)) !! 0%nat = Some Webcam.ended /\
  (1%positive ∉ Webcam.intervals (fst (Webcam.stopWebcam capturing))) /\
  Webcam.initializeWebcam (Some 1%nat) capturing = (capturing, []).
Proof.
  destruct (stop_idempotent_start_guarded capturing) as (Hi & Hr & Hg).
  destruct Hr as (_ & _ & _ & Ht & Hc).
  split; [exact Hi |].
  split; [apply (Ht (Webcam.mkStream [0%nat]) 0%nat eq_refl); left; reflexivity |].
  split; [apply (Hc 1%positive eq_refl) |].
  apply (Hg (Some 1%nat) (Webcam.mkStream [0%nat]) eq_refl).
Defined.

Example capturing_state :
  Webcam.streamRef (snd capturing) = Some (Webcam.mkStream [0%nat]) /\
  Webcam.tracks (fst capturing) !! 0%nat = Some Webcam.live /\
  Webcam.detectionIntervalRef (snd capturing) = Some 1%positive /\
  Webcam.acquired (fst capturing) = 1%nat.
Proof. repeat split. Qed.


(** * Further properties of the code *)

(** ** The two classifiers side by side *)

(** X1. The classifier of the component never rates a count lower than
    the classifier of the route, and the two differ exactly on the counts
    5, 6, 8, 9 and 10: a frame of 8 people is high when the component
    falls back on its own generator and medium when the route answers. *)
Theorem classifiers_differ (count : Z) :
  risk_le (MockRoute.classify count) (Webcam.classify count) /\
  (MockRoute.classify count <> Webcam.classify count <->
   count = 5 \/ count = 6 \/ 8 <= count <= 10).
Proof.
  unfold risk_le. classify_cases; simpl; (split; [lia |]);
    split; intros Hd; try lia; try congruence.
Qed.

(** ** Geometry of the mock boxes *)

Lemma route_mockBox_inside (g : MathRandom) :
  unit_draws g -> insideFrame (fst (MockRoute.mockBox g)).
Proof.
  intros Hg.
  destruct (Hg (cursor g)) as [? ?].
  destruct (Hg (S (cursor g))) as [? ?].
  destruct (Hg (S (S (cursor g)))) as [? ?].
  destruct (Hg (S (S (S (cursor g))))) as [? ?].
  unfold insideFrame. simpl. repeat split; lra.
Qed.

Lemma webcam_mockBox_inside (g : MathRandom) :
  unit_draws g -> insideFrame (fst (Webcam.mockBox g)).
Proof.
  intros Hg.
  destruct (Hg (cursor g)) as [? ?].
  destruct (Hg (S (cursor g))) as [? ?].
  destruct (Hg (S (S (cursor g)))) as [? ?].
  destruct (Hg (S (S (S (cursor g))))) as [? ?].
  unfold insideFrame. simpl. repeat split; lra.
Qed.

Lemma arrayFrom_all {A : Type} (P : A -> Prop) (k : nat) (f : Rand A) :
  reads k f ->
  (forall g, unit_draws g -> P (fst (f g))) ->
  forall n g a, unit_draws g -> In a (fst (arrayFrom n f g)) -> P a.
Proof.
  intros [Hs _] HP. induction n as [| n IH]; intros g a Hg Hin; [destruct Hin |].
  simpl in Hin. rewrite !bind_run in Hin. simpl in Hin.
  destruct Hin as [<- | Hin]; [apply HP, Hg |].
  rewrite Hs in Hin. apply (IH (advance k g) a); [apply unit_draws_advance, Hg | exact Hin].
Qed.

(** X2. Every bounding box of a mock result, of the route as of the
    component, has positive width and height and lies within the
    normalized frame: its corner is at 0 or more and [x + width] and
    [y + height] are at most 1. *)
Theorem mock_boxes_inside_frame (g : MathRandom) :
  unit_draws g ->
  (forall b, In b (boundingBoxes (fst (MockRoute.generateMockDetections g))) ->
             insideFrame b) /\
  (forall b, In b (boundingBoxes (fst (Webcam.generateMockDetections g))) ->
             insideFrame b).
Proof.
  intros Hg. split; intros b Hin.
  - rewrite route_generate_run in Hin. simpl in Hin.
    eapply (arrayFrom_all insideFrame 5 _ route_mockBox_reads route_mockBox_inside);
      [| exact Hin]. apply unit_draws_advance, Hg.
  - rewrite webcam_generate_run in Hin. simpl in Hin.
    eapply (arrayFrom_all insideFrame 4 _ webcam_mockBox_reads webcam_mockBox_inside);
      [| exact Hin]. apply unit_draws_advance, Hg.
Qed.

Lemma mock_boxes_inside_frame_half :
  unit_draws (constant_draws 0.5) /\
  (forall b, In b (boundingBoxes (fst (MockRoute.generateMockDetections (constant_draws 0.5)))) ->
             insideFrame b) /\
  (forall b, In b (boundingBoxes (fst (Webcam.generateMockDetections (constant_draws 0.5)))) ->
             insideFrame b).
Proof.
  split; [intros i; simpl; split; [discriminate | reflexivity] |].
  apply (mock_boxes_inside_frame (constant_draws 0.5)).
  intros i. simpl. split; [discriminate | reflexivity].
Defined.

(** ** The draws behind a mock result *)

Lemma Qfloor_ge_iff (z : Z) (q : Q) : z <= Qfloor q <-> (inject_Z z <= q)%Q.
Proof.
  split; intros H.
  - apply Qle_trans with (inject_Z (Qfloor q)); [| apply Qfloor_le].
    rewrite <- Zle_Qle. exact H.
  - pose proof (Qlt_floor q) as Hlt.
    assert (Hz : (inject_Z z < inject_Z (Qfloor q + 1))%Q)
      by (eapply Qle_lt_trans; eassumption).
    rewrite <- Zlt_Qlt in Hz. lia.
Qed.

Lemma route_generate_state (g : MathRandom) :
  snd (MockRoute.generateMockDetections g) =
  advance (1 + toLength (count (fst (MockRoute.generateMockDetections g))) * 5) g.
Proof.
  rewrite route_generate_run. cbv zeta. simpl count.
  unfold MockRoute.generateMockDetections. rewrite !bind_run. simpl.
  rewrite (proj1 (reads_arrayFrom 5 _ _ route_mockBox_reads)).
  apply (advance_advance _ 1 g).
Qed.

Lemma webcam_generate_state (g : MathRandom) :
  snd (Webcam.generateMockDetections g) =
  advance (1 + toLength (count (fst (Webcam.generateMockDetections g))) * 4) g.
Proof.
  rewrite webcam_generate_run. cbv zeta. simpl count.
  unfold Webcam.generateMockDetections. rewrite !bind_run. simpl.
  rewrite (proj1 (reads_arrayFrom 4 _ _ webcam_mockBox_reads)).
  apply (advance_advance _ 1 g).
Qed.

(** X4. A mock result costs one draw for the count and five draws for
    each box in the route (four in the component), taken in a row from
    the generator: 6 to 76 draws in the route, 5 to 41 in the component.
    The draws themselves are left as they were. *)
Theorem mock_draws_consumed (g : MathRandom) :
  unit_draws g ->
  (let d := fst (MockRoute.generateMockDetections g) in
   let g' := snd (MockRoute.generateMockDetections g) in
   samples g' = samples g /\
   Z.of_nat (cursor g') = Z.of_nat (cursor g) + 1 + 5 * count d /\
   (cursor g + 6 <= cursor g' <= cursor g + 76)%nat) /\
  (let d := fst (Webcam.generateMockDetections g) in
   let g' := snd (Webcam.generateMockDetections g) in
   samples g' = samples g /\
   Z.of_nat (cursor g') = Z.of_nat (cursor g) + 1 + 4 * count d /\
   (cursor g + 5 <= cursor g' <= cursor g + 41)%nat).
Proof.
  intros Hg. cbv zeta.
  rewrite route_generate_state, webcam_generate_state.
  pose proof (route_generate_count g Hg) as [Hr _].
  pose proof (webcam_generate_count g Hg) as [Hw _].
  cbv zeta in Hr, Hw. unfold toLength. simpl samples. simpl cursor.
  repeat split; lia.
Qed.

Lemma mock_draws_consumed_half :
  unit_draws (constant_draws 0.5) /\
  (let d := fst (MockRoute.generateMockDetections (constant_draws 0.5)) in
   let g' := snd (MockRoute.generateMockDetections (constant_draws 0.5)) in
   samples g' = samples (constant_draws 0.5) /\
   Z.of_nat (cursor g') = Z.of_nat (cursor (constant_draws 0.5)) + 1 + 5 * count d /\
   (cursor (constant_draws 0.5) + 6 <= cursor g' <= cursor (constant_draws 0.5) + 76)%nat) /\
  (let d := fst (Webcam.generateMockDetections (constant_draws 0.5)) in
   let g' := snd (Webcam.generateMockDetections (constant_draws 0.5)) in
   samples g' = samples (constant_draws 0.5) /\
   Z.of_nat (cursor g') = Z.of_nat (cursor (constant_draws 0.5)) + 1 + 4 * count d /\
   (cursor (constant_draws 0.5) + 5 <= cursor g' <= cursor (constant_draws 0.5) + 41)%nat).
Proof.
  split; [intros i; simpl; split; [discriminate | reflexivity] |].
  apply (mock_draws_consumed (constant_draws 0.5)).
  intros i. simpl. split; [discriminate | reflexivity].
Defined.

(** ** Answers of the route *)

Lemma checkAlert_quiet (env : Env) (cam : option string) (d : DetectionResult) :
  alertsSent (checkAlert env cam d) <> [] \/ docsStored (checkAlert env cam d) <> [] ->
  riskLevel d = high.
Proof.
  unfold checkAlert. destruct (decide (riskLevel d = high)) as [H | H]; [auto |].
  simpl. intros [[] | []]; reflexivity.
Qed.

Ltac answer_cases :=
  simpl;
  (split; [auto |]);
  (split;
   [split;
    [first [discriminate | intros _; eauto]
    | intros [? Hb]; first [reflexivity | discriminate Hb]]
   |]);
  try (intros [[] | []]; reflexivity).

Lemma inference_POST_wellFormed (request : NextRequest) (env : Env) :
  wellFormedAnswer (InferenceRoute.POST request env).
Proof.
  unfold wellFormedAnswer, InferenceRoute.POST, InferenceRoute.detectionFailed.
  destruct (json request) as [b |];
    [destruct (falsy (image b));
     [| destruct (fetch env _) as [? | [] ? [d |]]] |]; answer_cases.
  intros H. unfold responseRisk. simpl. f_equal. apply (checkAlert_quiet _ _ _ H).
Qed.

Lemma mock_POST_wellFormed (request : NextRequest) (env : Env) (g : MathRandom) :
  wellFormedAnswer (fst (MockRoute.POST request env g)).
Proof.
  rewrite route_POST_run. unfold wellFormedAnswer.
  destruct (json request) as [b |]; [destruct (falsy (image b)) |]; answer_cases.
  intros H. unfold responseRisk. simpl. f_equal. apply (checkAlert_quiet _ _ _ H).
Qed.

Lemma plain_POST_run (request : NextRequest) (env : Env) (g : MathRandom) :
  PlainMockRoute.POST request env g =
  match json request with
  | None => ((mkResponse 500 (ErrorBody "Detection failed"),
              [ConsoleError "Detection API error:"]), g)
  | Some b =>
      if falsy (image b)
      then ((mkResponse 400 (ErrorBody "No image provided"), []), g)
      else
        let d := fst (MockRoute.generateMockDetections g) in
        ((mkResponse 200 (Detections d),
          if decide (riskLevel d = high)
          then [AlertSent (alertEvent env (cameraId b) d)]
          else []),
         snd (MockRoute.generateMockDetections g))
  end.
Proof.
  unfold PlainMockRoute.POST. destruct (json request) as [b |]; [| reflexivity].
  destruct (falsy (image b)); [reflexivity |].
  rewrite bind_run. reflexivity.
Qed.

Lemma plain_POST_wellFormed (request : NextRequest) (env : Env) (g : MathRandom) :
  wellFormedAnswer (fst (PlainMockRoute.POST request env g)).
Proof.
  rewrite plain_POST_run. unfold wellFormedAnswer.
  destruct (json request) as [b |]; [destruct (falsy (image b)) |]; answer_cases.
  unfold responseRisk. simpl.
  destruct (decide (riskLevel _ = high)) as [-> | H]; [reflexivity |].
  simpl. intros [[] | []]; reflexivity.
Qed.

(** X5. Every answer of the route, in its three revisions, has status
    200, 400 or 500; its body carries detections exactly when the status
    is 200; and a request sends or stores an alert only when it answers
    with detections at high risk. An error answer never alerts. *)
Theorem route_answers_wellFormed (request : NextRequest) (env : Env) (g : MathRandom) :
  wellFormedAnswer (InferenceRoute.POST request env) /\
  wellFormedAnswer (fst (MockRoute.POST request env g)) /\
  wellFormedAnswer (fst (PlainMockRoute.POST request env g)).
Proof.
  split; [apply inference_POST_wellFormed |].
  split; [apply mock_POST_wellFormed | apply plain_POST_wellFormed].
Qed.

Ltac route_case b :=
  solve
    [ discriminate
    | reflexivity
    | intros _; reflexivity
    | intros H; contradiction H; reflexivity
    | intros _; exists b; repeat split; first [assumption | reflexivity]
    | intros _; exists b; repeat split; try assumption;
      match goal with He : _ = _ |- _ => rewrite He; reflexivity end
    | intros (b' & Hb & H); first [discriminate Hb | injection Hb as <-];
      first [congruence
            | destruct H as [H1 H2]; first [congruence
                                           | rewrite H1 in *; discriminate
                                           | match goal with
                                             | He : fetch _ _ = _ |- _ =>
                                                 rewrite He in H2; discriminate H2
                                             end]] ].

(** X6. When the route succeeds, for a body whose image is a string or
    is absent. The mock revision answers 200 exactly when the body is
    JSON with a non-empty image, and takes no draw from [Math.random()]
    otherwise; the inference revision answers 200 exactly when, in
    addition, the inference server answers OK with a readable body.
    Either answers 400 exactly for a JSON body whose image is absent or
    the empty string. *)
Theorem route_success_conditions (request : NextRequest) (env : Env) (g : MathRandom) :
  (status (fst (fst (MockRoute.POST request env g))) = 200 <->
   exists b, json request = Some b /\ falsy (image b) = false) /\
  (status (fst (fst (MockRoute.POST request env g))) <> 200 ->
   snd (MockRoute.POST request env g) = g) /\
  (status (fst (InferenceRoute.POST request env)) = 200 <->
   exists b, json request = Some b /\ falsy (image b) = false /\
             Webcam.callFails (fetch env (mkBody (image b) (cameraId b))) = false) /\
  (status (fst (fst (MockRoute.POST request env g))) = 400 <->
   exists b, json request = Some b /\ falsy (image b) = true) /\
  (status (fst (InferenceRoute.POST request env)) = 400 <->
   exists b, json request = Some b /\ falsy (image b) = true).
Proof.
  unfold MockRoute.POST, InferenceRoute.POST, InferenceRoute.detectionFailed.
  destruct (json request) as [b |].
  - destruct (falsy (image b)) eqn:Hf.
    + simpl. repeat split; route_case b.
    + rewrite bind_run. simpl.
      destruct (fetch env _) as [? | [] ? [d |]] eqn:He; simpl;
        repeat split; route_case b.
  - simpl. repeat split; route_case (mkBody None None).
Qed.

(** ** What is stored and what is pushed *)

Lemma checkAlert_stored (env : Env) (cam : option string) (d : DetectionResult)
    (c : string) (doc : AlertDoc) :
  In (AddDoc c doc) (checkAlert env cam d) ->
  c = "alerts"%string /\
  doc = mkAlertDoc cam (count d) high false "Main Entrance"
          ("High risk detected: " ++ string_of_count (count d) ++ " people") /\
  In (AlertSent (mkAlert cam (count d) high (now env))) (checkAlert env cam d).
Proof.
  unfold checkAlert, storeAlert, alertDoc, sendAlertToAndroidApp, alertEvent.
  destruct (decide (riskLevel d = high)) as [Hh | Hh]; [| intros []].
  rewrite Hh. destruct (addDoc env _); simpl.
  - intros [[= <- <-] | [[=] | [[=] | []]]]. repeat split. auto.
  - intros [[=] | [[=] | []]].
Qed.

(** X7. Whatever a request stores is pushed as well. A document the route
    writes goes to the collection [alerts]; it is the document of the
    detections the request answers with, which are at high risk: it names
    the camera of the request and the count of these detections, is not
    acknowledged, carries the location "Main Entrance" whatever the
    camera and the message "High risk detected: <count> people"; and the
    same request pushes an alert for the same camera and count. *)
Theorem stored_alert_is_pushed (request : NextRequest) (env : Env) (g : MathRandom) :
  pushedWithStore request env (InferenceRoute.POST request env) /\
  pushedWithStore request env (fst (MockRoute.POST request env g)).
Proof.
  rewrite route_POST_run.
  unfold InferenceRoute.POST, InferenceRoute.detectionFailed.
  split; intros c doc H; unfold requestCamera;
    destruct (json request) as [b |];
    try (simpl in H; destruct H as [H | H]; [discriminate H | contradiction]);
    (destruct (falsy (image b)); [simpl in H; contradiction |]).
  - destruct (fetch env _) as [? | [] ? [d |]]; simpl in H;
      try (destruct H as [H | H]; [discriminate H | contradiction]).
    destruct (checkAlert_stored _ _ _ _ _ H) as (-> & -> & Hp).
    exists d. simpl. repeat split; try exact Hp.
    apply (checkAlert_quiet env (cameraId b) d). right.
    unfold docsStored. intros He.
    apply list_elem_of_In in H.
    assert (Hd : mkAlertDoc (cameraId b) (count d) high false "Main Entrance"
                   ("High risk detected: " ++ string_of_count (count d) ++ " people")
                 ∈ omap (fun e => match e with AddDoc _ doc => Some doc | _ => None end)
                     (checkAlert env (cameraId b) d)).
    { apply list_elem_of_omap. eexists. split; [exact H | reflexivity]. }
    rewrite He in Hd. apply elem_of_nil in Hd. exact Hd.
  - cbv zeta in H. simpl in H.
    destruct (checkAlert_stored _ _ _ _ _ H) as (-> & -> & Hp).
    exists (fst (MockRoute.generateMockDetections g)). simpl.
    repeat split; try exact Hp.
    apply (checkAlert_quiet env (cameraId b) (fst (MockRoute.generateMockDetections g))).
    right. unfold docsStored. intros He.
    apply list_elem_of_In in H.
    assert (Hd : mkAlertDoc (cameraId b)
                   (count (fst (MockRoute.generateMockDetections g))) high false
                   "Main Entrance"
                   ("High risk detected: "
                    ++ string_of_count (count (fst (MockRoute.generateMockDetections g)))
                    ++ " people")
                 ∈ omap (fun e => match e with AddDoc _ doc => Some doc | _ => None end)
                     (checkAlert env (cameraId b)
                        (fst (MockRoute.generateMockDetections g)))).
    { apply list_elem_of_omap. eexists. split; [exact H | reflexivity]. }
    rewrite He in Hd. apply elem_of_nil in Hd. exact Hd.
Qed.

Lemma stored_alert_is_pushed_crowded :
  exists d : DetectionResult,
    body (fst (InferenceRoute.POST frameRequest (crowdedEnv true))) = Detections d /\
    riskLevel d = high /\
    "alerts"%string = "alerts"%string /\
    mkAlertDoc (Some "CAM-001") 12 high false "Main Entrance"
               "High risk detected: 12 people"
    = mkAlertDoc (requestCamera frameRequest) (count d) high false "Main Entrance"
        ("High risk detected: " ++ string_of_count (count d) ++ " people") /\
    In (AlertSent (mkAlert (requestCamera frameRequest) (count d) high
                     (now (crowdedEnv true))))
       (snd (InferenceRoute.POST frameRequest (crowdedEnv true))).
Proof.
  apply (proj1 (stored_alert_is_pushed frameRequest (crowdedEnv true) (constant_draws 0))
               "alerts"%string
               (mkAlertDoc (Some "CAM-001") 12 high false "Main Entrance"
                           "High risk detected: 12 people")).
  left. reflexivity.
Defined.

(** ** The revision without storage *)

(** X8. The revision of the mock route that stores nothing answers every
    request as the storing revision does, takes the same draws and pushes
    the same alerts; it differs in that it never writes to Firestore. *)
Theorem plain_route_agrees (request : NextRequest) (env : Env) (g : MathRandom) :
  fst (fst (PlainMockRoute.POST request env g)) = fst (fst (MockRoute.POST request env g)) /\
  snd (PlainMockRoute.POST request env g) = snd (MockRoute.POST request env g) /\
  alertsSent (snd (fst (PlainMockRoute.POST request env g))) =
  alertsSent (snd (fst (MockRoute.POST request env g))) /\
  docsStored (snd (fst (PlainMockRoute.POST request env g))) = [].
Proof.
  rewrite plain_POST_run, route_POST_run. unfold MockRoute.POST.
  destruct (json request) as [b |]; [| repeat split].
  destruct (falsy (image b)); [repeat split |].
  rewrite bind_run. cbv zeta. simpl. rewrite checkAlert_alerts.
  repeat split; destruct (decide (riskLevel _ = high)); reflexivity.
Qed.

(** ** The component in front of the route *)

Lemma falsy_nonempty (s : string) : s <> EmptyString -> falsy (Some s) = false.
Proof. intros H. simpl. destruct (decide (s = EmptyString)); [contradiction | reflexivity]. Qed.

(** X9. The component in front of the route, for a captured frame that is
    not the empty string. In front of the mock revision it returns the
    route's mock result and never falls back. In front of the inference
    revision it returns the inference server's result unchanged when the
    server answers OK with a readable body, and in every other case (the
    route then answers 500) it falls back on its own mock result: an
    error of the route never reaches the caller of [detectCrowd]. *)
Theorem component_over_route (camera_id imageData : string) (env : Env)
    (gs g : MathRandom) :
  imageData <> EmptyString ->
  fst (Webcam.detectCrowd camera_id (overMock env gs) imageData g) =
    (fst (MockRoute.generateMockDetections gs), []) /\
  (forall st d,
     fetch env (mkBody (Some imageData) (Some camera_id)) = FetchResolves true st (Some d) ->
     fst (Webcam.detectCrowd camera_id (overInference env) imageData g) = (d, [])) /\
  (Webcam.callFails (fetch env (mkBody (Some imageData) (Some camera_id))) = true ->
   status (fst (InferenceRoute.POST
                  (mkRequest (Some (mkBody (Some imageData) (Some camera_id)))) env)) = 500 /\
   fst (Webcam.detectCrowd camera_id (overInference env) imageData g) =
     (fst (Webcam.generateMockDetections g), [ConsoleError "ML API error:"])).
Proof.
  intros Hne. pose proof (falsy_nonempty imageData Hne) as Hf.
  rewrite !detectCrowd_run. unfold overMock, overInference.
  rewrite route_POST_run. unfold InferenceRoute.POST, InferenceRoute.detectionFailed.
  cbn [json image cameraId]. rewrite Hf. cbv zeta.
  split; [reflexivity |]. split.
  - intros st d He. rewrite He. reflexivity.
  - intros Hc. destruct (fetch env _) as [? | [] ? [d |]];
      try discriminate Hc; split; reflexivity.
Qed.

Lemma component_over_route_down :
  fst (Webcam.detectCrowd "CAM-001" (overMock inferenceDown (constant_draws 0.9))
         "data:image/jpeg;base64," (constant_draws 0.5)) =
    (fst (MockRoute.generateMockDetections (constant_draws 0.9)), []) /\
  fst (Webcam.detectCrowd "CAM-001" (overInference inferenceDown)
         "data:image/jpeg;base64," (constant_draws 0.5)) =
    (fst (Webcam.generateMockDetections (constant_draws 0.5)),
     [ConsoleError "ML API error:"]).
Proof.
  destruct (component_over_route "CAM-001" "data:image/jpeg;base64," inferenceDown
              (constant_draws 0.9) (constant_draws 0.5) ltac:(discriminate))
    as (Hm & _ & Hd).
  split; [exact Hm |]. apply (Hd eq_refl).
Defined.

(** ** What is painted on the canvas *)

Lemma drawBoxes_length (i : nat) (boxes : list BoundingBox) (W H : Q) :
  length (Feed.drawBoxes i boxes W H) = (2 * length boxes)%nat.
Proof.
  revert i. induction boxes as [| b rest IH]; intros i; simpl; [reflexivity |].
  rewrite IH. lia.
Qed.

Lemma scaled_inside (b : BoundingBox) (W H : Q) :
  (0 <= W)%Q -> (0 <= H)%Q -> insideFrame b ->
  insideCanvas W H (Feed.StrokeRect (x b * W) (y b * H) (width b * W) (height b * H)).
Proof.
  intros HW HH (Hx & Hy & Hw & Hh & Hxw & Hyh). simpl.
  assert (Hscale : forall p q S : Q,
             (0 <= S)%Q -> (p + q <= 1)%Q -> (p * S + q * S <= S)%Q).
  { intros p q S HS Hpq.
    apply Qle_trans with ((p + q) * S)%Q; [apply Qle_lteq; right; ring |].
    apply Qle_trans with (1 * S)%Q; [apply Qmult_le_compat_r; assumption |].
    rewrite Qmult_1_l. apply Qle_refl. }
  repeat split; try (apply Qmult_le_0_compat; lra); apply Hscale; assumption.
Qed.

(** X10. [drawBoundingBoxes] paints one rectangle and one label per box,
    and on a canvas of non-negative size every rectangle of a box that
    lies within the normalized frame lies within the canvas. *)
Theorem boxes_drawn_inside_canvas (i : nat) (boxes : list BoundingBox) (W H : Z) :
  0 <= W -> 0 <= H ->
  (forall b, In b boxes -> insideFrame b) ->
  length (Feed.drawBoxes i boxes (inject_Z W) (inject_Z H)) = (2 * length boxes)%nat /\
  length (labels (Feed.drawBoxes i boxes (inject_Z W) (inject_Z H))) = length boxes /\
  forall d, In d (Feed.drawBoxes i boxes (inject_Z W) (inject_Z H)) ->
            insideCanvas (inject_Z W) (inject_Z H) d.
Proof.
  intros HW HH Hin. split; [apply drawBoxes_length |].
  assert (HWq : (0 <= inject_Z W)%Q) by (rewrite (Zle_Qle 0 W) in HW; exact HW).
  assert (HHq : (0 <= inject_Z H)%Q) by (rewrite (Zle_Qle 0 H) in HH; exact HH).
  revert i. induction boxes as [| b rest IH]; intros i.
  - split; [reflexivity | intros d []].
  - destruct (IH (fun b' Hb' => Hin b' (or_intror Hb')) (S i)) as [IHl IHd].
    split; [simpl; rewrite IHl; reflexivity |].
    intros d [<- | [<- | Hd]].
    + apply scaled_inside; [assumption | assumption | apply Hin; left; reflexivity].
    + exact I.
    + apply (IHd d Hd).
Qed.

Lemma boxes_drawn_inside_canvas_one :
  insideCanvas (inject_Z 640) (inject_Z 480)
    (Feed.StrokeRect (0.25 * inject_Z 640) (0.5 * inject_Z 480)
                     (0.5 * inject_Z 640) (0.25 * inject_Z 480)).
Proof.
  assert (Hb : forall b, In b [mkBox 0.25 0.5 0.5 0.25 None] -> insideFrame b).
  { intros b [<- | []]. unfold insideFrame. simpl. repeat split; lra. }
  destruct (boxes_drawn_inside_canvas 0 [mkBox 0.25 0.5 0.5 0.25 None] 640 480
              ltac:(lia) ltac:(lia) Hb) as (_ & _ & Hd).
  apply Hd. left. reflexivity.
Defined.

Lemma drawBoxes_labels (boxes : list BoundingBox) (W H : Q) :
  forall (i k : nat) (b : BoundingBox),
    boxes !! k = Some b ->
    labels (Feed.drawBoxes i boxes W H) !! k = Some (Feed.boxLabel (i + k) b).
Proof.
  induction boxes as [| b' rest IH]; intros i k b Hk; [destruct k; discriminate |].
  change (labels (Feed.drawBoxes i (b' :: rest) W H))
    with (Feed.boxLabel i b' :: labels (Feed.drawBoxes (S i) rest W H)).
  destruct k as [| k].
  - injection Hk as <-. rewrite Nat.add_0_r. reflexivity.
  - change ((Feed.boxLabel i b' :: labels (Feed.drawBoxes (S i) rest W H)) !! S k)
      with (labels (Feed.drawBoxes (S i) rest W H) !! k).
    rewrite (IH (S i) k b Hk). f_equal. f_equal. lia.
Qed.

Lemma lookup_In {A : Type} (l : list A) (k : nat) (a : A) :
  l !! k = Some a -> In a l.
Proof. intros H. apply list_elem_of_In. eapply list_elem_of_lookup_2, H. Qed.

Lemma webcam_mockBox_no_confidence (g : MathRandom) :
  unit_draws g -> confidence (fst (Webcam.mockBox g)) = None.
Proof. reflexivity. Qed.

Lemma percent_of_confidence (c : Q) :
  (0.7 <= c)%Q -> (c < 1)%Q ->
  Qeq_bool c 0 = false /\ 70 <= Feed.mathRound (c * 100) <= 100.
Proof.
  intros Hlo Hhi. split.
  - destruct (Qeq_bool c 0) eqn:E; [| reflexivity].
    apply Qeq_bool_iff in E. rewrite E in Hlo. exfalso. apply Hlo. reflexivity.
  - unfold Feed.mathRound. split.
    + apply Qfloor_ge_iff. unfold inject_Z. lra.
    + destruct (Z_le_gt_dec (Qfloor (c * 100 + (1 # 2))) 100) as [Hle | Hgt];
        [exact Hle | exfalso].
      assert (H101 : 101 <= Qfloor (c * 100 + (1 # 2))) by lia.
      apply Qfloor_ge_iff in H101. unfold inject_Z in H101. lra.
Qed.

(** X11. The labels painted for a mock result. The boxes of the
    component's own generator carry no confidence and are labelled P1,
    P2, ... in order; the boxes of the route's generator are labelled
    "Pn (p%)" with the box number n and a percentage p between 70 and
    100. *)
Theorem mock_labels (g : MathRandom) (W H : Q) :
  unit_draws g ->
  (forall k b,
     boundingBoxes (fst (Webcam.generateMockDetections g)) !! k = Some b ->
     labels (Feed.drawBoxes 0 (boundingBoxes (fst (Webcam.generateMockDetections g))) W H)
       !! k = Some ("P" ++ string_of_count (Z.of_nat k + 1))%string) /\
  (forall k b,
     boundingBoxes (fst (MockRoute.generateMockDetections g)) !! k = Some b ->
     exists p, 70 <= p <= 100 /\
       labels (Feed.drawBoxes 0 (boundingBoxes (fst (MockRoute.generateMockDetections g))) W H)
         !! k = Some ("P" ++ string_of_count (Z.of_nat k + 1)
                      ++ " (" ++ string_of_count p ++ "%)")%string).
Proof.
  intros Hg. split; intros k b Hk.
  - rewrite (drawBoxes_labels _ W H 0 k b Hk). simpl Nat.add.
    assert (Hc : confidence b = None).
    { apply lookup_In in Hk. rewrite webcam_generate_run in Hk. simpl in Hk.
      eapply (arrayFrom_all (fun b => confidence b = None) 4 _
                webcam_mockBox_reads webcam_mockBox_no_confidence); [| exact Hk].
      apply unit_draws_advance, Hg. }
    unfold Feed.boxLabel. rewrite Hc. reflexivity.
  - rewrite (drawBoxes_labels _ W H 0 k b Hk). simpl Nat.add.
    assert (Hb : exists c, confidence b = Some c /\ (0.7 <= c)%Q /\ (c < 1)%Q).
    { apply lookup_In in Hk. rewrite route_generate_run in Hk. simpl in Hk.
      eapply route_boxes_confidence; [| exact Hk]. apply unit_draws_advance, Hg. }
    destruct Hb as (c & Hc & Hlo & Hhi).
    destruct (percent_of_confidence c Hlo Hhi) as [Hz Hp].
    exists (Feed.mathRound (c * 100)). split; [exact Hp |].
    unfold Feed.boxLabel. rewrite Hc, Hz. reflexivity.
Qed.

Lemma mock_labels_half :
  unit_draws (constant_draws 0.5) /\
  labels (Feed.drawBoxes 0
            (boundingBoxes (fst (Webcam.generateMockDetections (constant_draws 0.5)))) 640 480)
    !! 0%nat = Some "P1"%string.
Proof.
  split; [intros i; simpl; split; [discriminate | reflexivity] |].
  refine (proj1 (mock_labels (constant_draws 0.5) 640 480 _) 0%nat
            (mkBox (0.5 * 0.7 + 0.1) (0.5 * 0.6 + 0.1) (0.1 + 0.5 * 0.05)
                   (0.15 + 0.5 * 0.1) None)%Q _).
  - intros i. simpl. split; [discriminate | reflexivity].
  - reflexivity.
Defined.

(** ** A detection run of the component *)

Lemma runDetection_run (camera_id : string) (fetch : RequestBody -> FetchOutcome)
    (onDetectionUpdate : option (string -> DetectionResult -> list Effect))
    (w h : Z) (imageData : string) (f : Feed.Feed) (g : MathRandom)
    (video : Webcam.HTMLVideoElement) (canvas : Feed.Canvas) :
  Webcam.videoRef (snd (Feed.page f)) = Some video ->
  Feed.canvasRef f = Some canvas ->
  Feed.has2d canvas = true ->
  let r := fst (Webcam.detectCrowd camera_id fetch imageData g) in
  let f' := fst (fst (Feed.runDetection camera_id fetch onDetectionUpdate w h
                        (Feed.Captured imageData) f g)) in
  Feed.page f' = Feed.page f /\
  Feed.detections f' = Some (fst r) /\
  snd (fst (Feed.runDetection camera_id fetch onDetectionUpdate w h
              (Feed.Captured imageData) f g)) =
    snd r ++ [ConsoleLog ("[ML] Camera " ++ camera_id ++ " response:")]
    ++ match onDetectionUpdate with
       | Some callback => callback camera_id (fst r)
       | None => []
       end.
Proof.
  intros Hv Hc H2d. unfold Feed.runDetection. rewrite Hv, Hc, H2d.
  cbv beta iota zeta delta [negb]. rewrite bind_run. simpl. repeat split.
Qed.

(** X12. In the camera page, whose callback is [handleDetectionUpdate]
    (or without a callback), and for answers of the route that are
    detection results: a detection run sets the error of the component
    only when capturing the frame throws, and then only when the message
    is not "Failed to fetch"; once the frame is captured, no outcome of
    the request to the route, failure included, changes the error or any
    other ref or state variable of the webcam life cycle. *)
Theorem error_only_from_capture (camera_id : string)
    (fetch : RequestBody -> FetchOutcome) (parent : bool)
    (w h : Z) (capture : Feed.Capture) (f : Feed.Feed) (g : MathRandom) :
  let onDetectionUpdate := if parent then Some handleDetectionUpdate else None in
  let f' := fst (fst (Feed.runDetection camera_id fetch onDetectionUpdate w h capture f g)) in
  (Webcam.error (snd (Feed.page f')) <> Webcam.error (snd (Feed.page f)) ->
   exists message,
     capture = Feed.CaptureThrows message /\
     message <> "Failed to fetch"%string /\
     Webcam.error (snd (Feed.page f')) = Some ("ML Error: " ++ message)%string) /\
  (forall imageData, capture = Feed.Captured imageData -> Feed.page f' = Feed.page f).
Proof.
  cbv zeta. generalize (if parent then Some handleDetectionUpdate else None).
  intros onDetectionUpdate. unfold Feed.runDetection.
  destruct (Webcam.videoRef (snd (Feed.page f))) as [video |];
    [| split; [intros H; contradiction H; reflexivity | reflexivity]].
  destruct (Feed.canvasRef f) as [canvas |];
    [| split; [intros H; contradiction H; reflexivity | reflexivity]].
  destruct (Feed.has2d canvas); cbv beta iota zeta delta [negb];
    [| split; [intros H; contradiction H; reflexivity | reflexivity]].
  destruct capture as [imageData | message]; cbv beta iota zeta.
  - rewrite bind_run. simpl.
    split; [intros H; contradiction H; reflexivity | reflexivity].
  - simpl. split; [| intros ? [=]].
    destruct (decide (message <> "Failed to fetch"%string)) as [Hm | Hm].
    + intros _. exists message. repeat split. exact Hm.
    + intros H. contradiction H. reflexivity.
Qed.

Lemma error_only_from_capture_security :
  exists message,
    Feed.CaptureThrows "The operation is insecure." = Feed.CaptureThrows message /\
    message <> "Failed to fetch"%string /\
    Webcam.error
      (snd (Feed.page
              (fst (fst (Feed.runDetection "CAM-001" unreachable (Some handleDetectionUpdate)
                           640 480 (Feed.CaptureThrows "The operation is insecure.")
                           mounted (constant_draws 0.5))))))
    = Some ("ML Error: " ++ message)%string.
Proof.
  apply (proj1 (error_only_from_capture "CAM-001" unreachable true
                  640 480 (Feed.CaptureThrows "The operation is insecure.")
                  mounted (constant_draws 0.5))).
  discriminate.
Defined.

(** X13. A detection run whose request fails shows the fallback as if it
    were a detection: with the video element and the canvas in place, the
    component afterwards displays between 1 and 10 people with the risk
    level its own classifier gives that count, the parent is told the
    same result once, and the log holds the API error, the response line
    and the parent's line, in this order. *)
Theorem failed_run_shows_fallback (camera : Feed.Camera)
    (fetch : RequestBody -> FetchOutcome) (w h : Z) (imageData : string)
    (f : Feed.Feed) (g : MathRandom)
    (video : Webcam.HTMLVideoElement) (canvas : Feed.Canvas) :
  Webcam.videoRef (snd (Feed.page f)) = Some video ->
  Feed.canvasRef f = Some canvas ->
  Feed.has2d canvas = true ->
  unit_draws g ->
  Webcam.callFails (fetch (mkBody (Some imageData) (Some (Feed.camera_id camera)))) = true ->
  let r := fst (Feed.runDetection (Feed.camera_id camera) fetch (Some handleDetectionUpdate)
                  w h (Feed.Captured imageData) f g) in
  let shown := Webcam.displayedCount (Feed.detections (fst r)) in
  Feed.detections (fst r) = Some (fst (Webcam.generateMockDetections g)) /\
  1 <= shown <= 10 /\
  Webcam.displayedRisk (Feed.detections (fst r)) (Feed.camera_riskLevel camera)
    = Webcam.classify shown /\
  snd r =
    [ConsoleError "ML API error:";
     ConsoleLog ("[ML] Camera " ++ Feed.camera_id camera ++ " response:")]
    ++ handleDetectionUpdate (Feed.camera_id camera)
         (fst (Webcam.generateMockDetections g)).
Proof.
  intros Hv Hc H2d Hg Hf. cbv zeta.
  destruct (runDetection_run (Feed.camera_id camera) fetch (Some handleDetectionUpdate)
              w h imageData f g video canvas Hv Hc H2d) as (_ & Hd & Hl).
  cbv zeta in Hd, Hl. rewrite Hd, Hl.
  rewrite (detectCrowd_fallback _ _ _ g Hf). simpl fst. simpl snd.
  pose proof (webcam_generate_count g Hg) as [Hcount _]. cbv zeta in Hcount.
  assert (Hshown : Webcam.displayedCount (Some (fst (Webcam.generateMockDetections g)))
                   = count (fst (Webcam.generateMockDetections g))).
  { simpl. destruct (Z.eqb_spec (count (fst (Webcam.generateMockDetections g))) 0); lia. }
  rewrite Hshown. split; [reflexivity |]. split; [exact Hcount |].
  split; [| reflexivity].
  rewrite webcam_generate_run. reflexivity.
Qed.

Lemma failed_run_shows_fallback_mounted :
  let r := fst (Feed.runDetection "CAM-001" unreachable (Some handleDetectionUpdate)
                  640 480 (Feed.Captured "data:image/jpeg;base64,") mounted
                  (constant_draws 0.5)) in
  Feed.detections (fst r) = Some (fst (Webcam.generateMockDetections (constant_draws 0.5))) /\
  1 <= Webcam.displayedCount (Feed.detections (fst r)) <= 10.
Proof.
  destruct (failed_run_shows_fallback mainEntrance unreachable 640 480
              "data:image/jpeg;base64," mounted (constant_draws 0.5)
              (Webcam.mkVideo (Some (Webcam.mkStream [0%nat])) false true)
              (Feed.mkCanvas 300 150 true "#000000" 1 "10px sans-serif" "#000000" [])
              eq_refl eq_refl eq_refl unit_draws_constant_half eq_refl)
    as (Hd & Hs & _).
  split; [exact Hd | exact Hs].
Defined.

(** ** Tracks and timers over the life of the component *)

Lemma lookup_set_tracks (v : Webcam.ReadyState) (ts : list nat)
    (m : gmap nat Webcam.ReadyState) (t : nat) :
  foldl (fun m t => <[t := v]> m) m ts !! t =
  if in_dec Nat.eq_dec t ts then Some v
  else m !! t.
Proof.
  revert m. induction ts as [| t' ts IH]; intros m; [reflexivity |].
  simpl foldl. rewrite IH.
  destruct (in_dec Nat.eq_dec t ts) as [Hin | Hnin];
    destruct (in_dec Nat.eq_dec t (t' :: ts)) as [Hin' | Hnin']; try reflexivity.
  - exfalso. apply Hnin'. right. exact Hin.
  - destruct Hin' as [-> | Hin]; [apply lookup_insert_eq | contradiction].
  - apply lookup_insert_ne. intros ->. apply Hnin'. left. reflexivity.
Qed.

Lemma stopWebcam_no_live (s : Webcam.Browser * Webcam.Component) (t : nat) :
  noStrayTrack s -> Webcam.tracks (fst (Webcam.stopWebcam s)) !! t <> Some Webcam.live.
Proof.
  destruct s as [b c]. unfold noStrayTrack, heldTracks, Webcam.stopWebcam. simpl.
  intros Hs.
  assert (H : (match Webcam.streamRef c with
               | Some stream =>
                   Webcam.stopTracks (Webcam.getTracks stream) (Webcam.tracks b)
               | None => Webcam.tracks b
               end) !! t <> Some Webcam.live).
  { destruct (Webcam.streamRef c) as [stream |].
    - unfold Webcam.stopTracks. rewrite lookup_set_tracks.
      destruct (in_dec Nat.eq_dec t (Webcam.getTracks stream)) as [Hin | Hnin];
        [discriminate |].
      intros Hl. apply Hnin, (Hs t Hl).
    - intros Hl. apply (Hs t Hl). }
  destruct (Webcam.detectionIntervalRef c), (Webcam.streamRef c); exact H.
Qed.

Lemma stopWebcam_noStray (s : Webcam.Browser * Webcam.Component) :
  noStrayTrack s -> noStrayTrack (Webcam.stopWebcam s).
Proof.
  intros Hs t Hl. exfalso. apply (stopWebcam_no_live s t Hs Hl).
Qed.

Lemma initializeWebcam_noStray (device : option nat)
    (s : Webcam.Browser * Webcam.Component) :
  noStrayTrack s -> noStrayTrack (fst (Webcam.initializeWebcam device s)).
Proof.
  destruct s as [b c]. unfold noStrayTrack, heldTracks, Webcam.initializeWebcam.
  simpl. intros Hs.
  destruct (Webcam.streamRef c) as [stream |] eqn:Hc.
  - simpl. rewrite Hc. exact Hs.
  - destruct device as [n |]; simpl.
    + destruct (Webcam.isWebcamEnabled c); simpl; intros t.
      * rewrite lookup_set_tracks.
        destruct (in_dec Nat.eq_dec t (seq (Webcam.nextTrack b) n)) as [Hin | Hnin];
          [intros _; exact Hin | intros Hl; destruct (Hs t Hl)].
      * unfold Webcam.stopTracks. rewrite !lookup_set_tracks.
        destruct (in_dec Nat.eq_dec t (seq (Webcam.nextTrack b) n));
          [discriminate | intros Hl; destruct (Hs t Hl)].
    + intros t Hl. destruct (Hs t Hl).
Qed.

Lemma step_noStray (camera : Feed.Camera) (f : Feed.Feed) (s : Feed.Step) :
  noStrayTrack (Feed.page f) -> noStrayTrack (Feed.page (Feed.step camera f s)).
Proof.
  intros Hs. destruct s as [| device | | |]; simpl.
  - unfold Feed.toggleWebcam. destruct (Feed.isMainCamera camera); exact Hs.
  - unfold Feed.webcamEffect.
    destruct (Feed.camera_status camera);
      [destruct (Webcam.isWebcamEnabled _ && Feed.isMainCamera camera) |]; simpl;
      [apply initializeWebcam_noStray | apply stopWebcam_noStray
      | apply stopWebcam_noStray]; exact Hs.
  - apply stopWebcam_noStray, Hs.
  - destruct (Feed.page f) as [b c]. exact Hs.
  - exact Hs.
Qed.

Lemma run_noStray (camera : Feed.Camera) (steps : list Feed.Step) (f : Feed.Feed) :
  noStrayTrack (Feed.page f) -> noStrayTrack (Feed.page (Feed.run camera steps f)).
Proof.
  revert f. induction steps as [| s steps IH]; intros f Hs; [exact Hs |].
  apply IH, step_noStray, Hs.
Qed.

(** X14. No capture track is left live. When each call runs to its end
    before the next one starts, every state the component reaches by
    toggling, by its first effect (whatever [getUserMedia] answers) and
    its cleanup, by starting the detection timer and by pausing has no
    live track besides those of the stream it holds; and after the
    cleanup no track is live at all. *)
Theorem no_track_left_live (camera : Feed.Camera) (steps : list Feed.Step)
    (f : Feed.Feed) :
  noStrayTrack (Feed.page f) ->
  noStrayTrack (Feed.page (Feed.run camera steps f)) /\
  forall t,
    Webcam.tracks (fst (Feed.page (Feed.cleanup (Feed.run camera steps f)))) !! t
    <> Some Webcam.live.
Proof.
  intros Hs. pose proof (run_noStray camera steps f Hs) as Hr.
  split; [exact Hr |]. intros t. apply stopWebcam_no_live, Hr.
Qed.

Lemma no_track_left_live_main :
  let f := Feed.initial mainEntrance (Webcam.mkBrowser ∅ 0 ∅ 1%positive 0) in
  let steps := [Feed.Effect1 (Some 1%nat); Feed.StartDetection; Feed.Toggle;
                Feed.Effect1 None] in
  noStrayTrack (Feed.page (Feed.run mainEntrance steps f)) /\
  forall t,
    Webcam.tracks (fst (Feed.page (Feed.cleanup (Feed.run mainEntrance steps f)))) !! t
    <> Some Webcam.live.
Proof.
  apply (no_track_left_live mainEntrance).
  intros t Hl. simpl in Hl. rewrite lookup_empty in Hl. discriminate Hl.
Defined.

Lemma step_neverAcquired (camera : Feed.Camera) (b : Webcam.Browser)
    (f : Feed.Feed) (s : Feed.Step) :
  Feed.isMainCamera camera = false ->
  neverAcquired b f -> neverAcquired b (Feed.step camera f s).
Proof.
  intros Hm (Hs & Ha & He & Hq & Ht). unfold neverAcquired.
  destruct f as [[br c] p d cv]. simpl in *.
  destruct s as [| device | | |]; simpl.
  - unfold Feed.toggleWebcam. rewrite Hm. simpl. auto.
  - unfold Feed.webcamEffect. rewrite Hm, andb_false_r.
    destruct (Feed.camera_status camera); simpl; rewrite Hs;
      destruct (Webcam.detectionIntervalRef c); simpl; auto.
  - rewrite Hs. destruct (Webcam.detectionIntervalRef c); simpl; auto.
  - auto.
  - auto.
Qed.

(** X15. Only the main camera opens the webcam. For a camera whose id is
    not "CAM-001" the component starts switched off, the toggle button
    does nothing, and whatever is toggled, run or paused afterwards it
    never calls [getUserMedia]: no stream is acquired or held, no track
    changes, and the component never becomes active. *)
Theorem other_cameras_never_acquire (camera : Feed.Camera) (steps : list Feed.Step)
    (b : Webcam.Browser) :
  Feed.camera_id camera <> "CAM-001"%string ->
  Feed.toggleWebcam camera (Feed.initial camera b) = Feed.initial camera b /\
  neverAcquired b (Feed.run camera steps (Feed.initial camera b)).
Proof.
  intros Hid.
  assert (Hm : Feed.isMainCamera camera = false).
  { unfold Feed.isMainCamera. destruct (decide _); [contradiction | reflexivity]. }
  split; [unfold Feed.toggleWebcam; rewrite Hm; reflexivity |].
  assert (H0 : neverAcquired b (Feed.initial camera b)).
  { unfold neverAcquired, Feed.initial. simpl. rewrite Hm. auto. }
  revert H0. generalize (Feed.initial camera b).
  induction steps as [| s steps IH]; intros f Hf; [exact Hf |].
  apply IH, step_neverAcquired; assumption.
Qed.

Lemma other_cameras_never_acquire_foodCourt :
  neverAcquired (Webcam.mkBrowser ∅ 0 ∅ 1%positive 0)
    (Feed.run foodCourt [Feed.Toggle; Feed.Effect1 (Some 1%nat); Feed.StartDetection]
       (Feed.initial foodCourt (Webcam.mkBrowser ∅ 0 ∅ 1%positive 0))).
Proof.
  apply (other_cameras_never_acquire foodCourt
           [Feed.Toggle; Feed.Effect1 (Some 1%nat); Feed.StartDetection]
           (Webcam.mkBrowser ∅ 0 ∅ 1%positive 0)).
  discriminate.
Defined.

(** X16. [stopWebcam] clears the timer whose handle is in the ref, and
    that one only. After one [startDetection] the timer it started is
    cleared by the next [stopWebcam]; after two in a row the second
    handle has overwritten the first, and the first timer is still
    running after [stopWebcam]. *)
Theorem overwritten_timer_keeps_running (s : Webcam.Browser * Webcam.Component) :
  (Webcam.nextInterval (fst s)
     ∉ Webcam.intervals (fst (Webcam.stopWebcam (Webcam.startDetection s)))) /\
  (Webcam.nextInterval (fst s)
     ∈ Webcam.intervals
         (fst (Webcam.stopWebcam (Webcam.startDetection (Webcam.startDetection s))))) /\
  Webcam.detectionIntervalRef
    (snd (Webcam.stopWebcam (Webcam.startDetection (Webcam.startDetection s)))) = None.
Proof.
  destruct s as [b c]. unfold Webcam.stopWebcam, Webcam.startDetection. simpl.
  split; [| split; [| reflexivity]].
  - destruct (Webcam.streamRef c); simpl; intros Hin;
      apply elem_of_difference in Hin as [_ Hn];
      apply Hn, elem_of_singleton; reflexivity.
  - assert (Hne : Webcam.nextInterval b <> Pos.succ (Webcam.nextInterval b)) by lia.
    destruct (Webcam.streamRef c); simpl; apply elem_of_difference;
      (split; [apply elem_of_union_r, elem_of_union_l, elem_of_singleton; reflexivity
              | rewrite elem_of_singleton; exact Hne]).
Qed.

(** X17. Pausing touches nothing but the pause itself. [togglePause]
    negates [isPaused], leaves the video element (when there is one)
    paused exactly when the component now is, and changes neither the
    stream, its tracks, the detection timer and its handle, nor what was
    detected: the detection timer keeps running while paused. *)
Theorem pause_leaves_capture_running (f : Feed.Feed) :
  let f' := Feed.togglePause f in
  Feed.isPaused f' = negb (Feed.isPaused f) /\
  (forall v, Webcam.videoRef (snd (Feed.page f')) = Some v ->
             Webcam.paused v = Feed.isPaused f') /\
  fst (Feed.page f') = fst (Feed.page f) /\
  Webcam.streamRef (snd (Feed.page f')) = Webcam.streamRef (snd (Feed.page f)) /\
  Webcam.detectionIntervalRef (snd (Feed.page f'))
    = Webcam.detectionIntervalRef (snd (Feed.page f)) /\
  Feed.detections f' = Feed.detections f /\
  Feed.isPaused (Feed.togglePause f') = Feed.isPaused f.
Proof.
  cbv zeta. unfold Feed.togglePause. simpl.
  repeat split; try (destruct (Feed.isPaused f); reflexivity).
  intros v. destruct (Webcam.videoRef (snd (Feed.page f))) as [v0 |]; [| discriminate].
  destruct (Feed.isPaused f); intros [= <-]; reflexivity.
Qed.

Lemma step_detections (camera : Feed.Camera) (f : Feed.Feed) (s : Feed.Step) :
  Feed.detections (Feed.step camera f s) = Feed.detections f.
Proof.
  destruct s as [| device | | |]; simpl; try reflexivity.
  - unfold Feed.toggleWebcam. destruct (Feed.isMainCamera camera); reflexivity.
  - unfold Feed.webcamEffect.
    destruct (Feed.camera_status camera);
      [destruct (Webcam.isWebcamEnabled _ && Feed.isMainCamera camera) |]; reflexivity.
Qed.

(** X18. Only a detection run changes what the card shows. Toggling,
    starting, stopping and pausing leave [detections] as they are: a
    component that has not completed a detection shows 0 people with the
    risk level configured for the camera, whatever [peopleCount] the
    camera has, and a stopped component keeps showing the count and the
    risk level of its last detection. *)
Theorem lifecycle_keeps_detections (camera : Feed.Camera) (steps : list Feed.Step)
    (f : Feed.Feed) (b : Webcam.Browser) :
  Feed.detections (Feed.run camera steps f) = Feed.detections f /\
  Feed.detections (Feed.cleanup (Feed.run camera steps f)) = Feed.detections f /\
  Webcam.displayedCount (Feed.detections (Feed.run camera steps (Feed.initial camera b))) = 0 /\
  Webcam.displayedRisk (Feed.detections (Feed.run camera steps (Feed.initial camera b)))
    (Feed.camera_riskLevel camera) = Feed.camera_riskLevel camera.
Proof.
  assert (H : forall f0, Feed.detections (Feed.run camera steps f0) = Feed.detections f0).
  { induction steps as [| s steps IH]; intros f0; [reflexivity |].
    change (Feed.run camera (s :: steps) f0)
      with (Feed.run camera steps (Feed.step camera f0 s)).
    rewrite IH. apply step_detections. }
  split; [apply H |]. split; [simpl; apply H |].
  rewrite H. split; reflexivity.
Qed.

(** X19. A refused webcam is not asked for again until the user asks.
    When the first effect of the main camera calls [getUserMedia] and the
    call rejects, the component shows the permission error and switches
    itself off, so that running the effect again stops instead of calling
    [getUserMedia]; after the toggle button has switched it on again, the
    effect acquires one stream, holds it, becomes active and clears the
    error. *)
Theorem refused_webcam_not_retried (camera : Feed.Camera) (f : Feed.Feed)
    (device : option nat) (n : nat) :
  Feed.camera_id camera = "CAM-001"%string ->
  Feed.camera_status camera = Feed.online ->
  Webcam.streamRef (snd (Feed.page f)) = None ->
  Webcam.isWebcamEnabled (snd (Feed.page f)) = true ->
  let refused := fst (Feed.webcamEffect camera None f) in
  let again := fst (Feed.webcamEffect camera device refused) in
  let retried := fst (Feed.webcamEffect camera (Some n) (Feed.toggleWebcam camera refused)) in
  Webcam.error (snd (Feed.page refused))
    = Some "Unable to access webcam. Please check permissions."%string /\
  Webcam.isWebcamEnabled (snd (Feed.page refused)) = false /\
  Webcam.isWebcamActive (snd (Feed.page refused)) = false /\
  Webcam.acquired (fst (Feed.page again)) = Webcam.acquired (fst (Feed.page f)) /\
  Webcam.streamRef (snd (Feed.page again)) = None /\
  Webcam.acquired (fst (Feed.page retried)) = S (Webcam.acquired (fst (Feed.page f))) /\
  Webcam.streamRef (snd (Feed.page retried))
    = Some (Webcam.mkStream (seq (Webcam.nextTrack (fst (Feed.page f))) n)) /\
  Webcam.isWebcamActive (snd (Feed.page retried)) = true /\
  Webcam.error (snd (Feed.page retried)) = None.
Proof.
  intros Hid Hon Hs He. cbv zeta.
  assert (Hm : Feed.isMainCamera camera = true).
  { unfold Feed.isMainCamera. destruct (decide _); [reflexivity | contradiction]. }
  destruct f as [[b c] p d cv]. simpl in Hs, He.
  unfold Feed.webcamEffect, Feed.toggleWebcam, Feed.withComponent,
    Webcam.initializeWebcam, Webcam.stopWebcam.
  rewrite Hon, Hm. simpl. rewrite He, Hs. simpl.
  destruct (Webcam.detectionIntervalRef c); simpl; repeat split.
Qed.

Lemma refused_webcam_not_retried_main :
  let f := Feed.initial mainEntrance (Webcam.mkBrowser ∅ 0 ∅ 1%positive 0) in
  let refused := fst (Feed.webcamEffect mainEntrance None f) in
  let again := fst (Feed.webcamEffect mainEntrance (Some 1%nat) refused) in
  let retried :=
    fst (Feed.webcamEffect mainEntrance (Some 1%nat)
           (Feed.toggleWebcam mainEntrance refused)) in
  Webcam.acquired (fst (Feed.page again)) = 0%nat /\
  Webcam.acquired (fst (Feed.page retried)) = 1%nat.
Proof.
  destruct (refused_webcam_not_retried mainEntrance
              (Feed.initial mainEntrance (Webcam.mkBrowser ∅ 0 ∅ 1%positive 0))
              (Some 1%nat) 1%nat eq_refl eq_refl eq_refl eq_refl)
    as (_ & _ & _ & Ha & _ & Hr & _).
  split; [exact Ha | exact Hr].
Defined.

(** ** Two runs on the same input *)






